(** * eBay Auto Specifics: the /analyze relay of [server/main.py]

    A shallow embedding of the Flask application in [server/main.py] and
    the properties of its request pipeline.

    Conventions of the embedding.
    - A Python [str] is a Rocq [string]; one character stands for one code
      point (the range 0..255).
    - The values [json.loads] produces and [jsonify] consumes are the
      inductive [value] ([None], [bool], [int], [float], [str], [list],
      [dict]); a [dict] keeps its items in insertion order.
    - [os.environ] is a finite map from names to strings.
    - Everything outside the repository (the JSON decoder, [requests],
      the Google client library, the OpenAI client, the clock) is a field
      of the record [World]; the Vision client built at start-up is the
      record [VisionClient].  Theorems quantify over every world and
      every client.
    - Exceptions are values of [exn] (instances of Python's [Exception]);
      a computation of the handler either continues, has executed a
      [return], or has raised.  The handler also records, in program
      order, the calls it makes ([event]).
    - [print] statements only write to the log and are left out. *)

From Stdlib Require Import ZArith Ascii String List Bool Lia.
From Stdlib Require Import Floats.SpecFloat.
From stdpp Require Import base option list strings gmap pretty.

Set Warnings "-register-all".

Local Open Scope string_scope.
Local Open Scope Z_scope.

(** ** Python values *)

Module Py.

(** What [json.loads] returns and [jsonify] serialises. *)
Inductive value : Type :=
| VNone
| VBool (b : bool)
| VInt (n : Z)
| VFloat (f : spec_float)
| VStr (s : string)
| VList (xs : list value)
| VDict (items : list (string * value)).

(** Exception classes that occur in the program.  [AuthenticationError]
    is a subclass of [APIError] in the openai package and
    [JSONDecodeError] one of [ValueError]; every class here derives from
    [Exception]. *)
Inductive exn_class : Type :=
| JSONDecodeError
| ValueError
| RecursionError
| TypeError
| AttributeError
| IndexError
| AuthenticationError
| APIError
| OtherException.

Record exn : Type := mk_exn { exn_cls : exn_class; exn_msg : string }.

(** [str(e)] *)
Definition str_exn (e : exn) : string := exn_msg e.

Definition exn_class_eqb (a b : exn_class) : bool :=
  match a, b with
  | JSONDecodeError, JSONDecodeError
  | ValueError, ValueError
  | RecursionError, RecursionError
  | TypeError, TypeError
  | AttributeError, AttributeError
  | IndexError, IndexError
  | AuthenticationError, AuthenticationError
  | APIError, APIError
  | OtherException, OtherException => true
  | _, _ => false
  end.

(** [isinstance(e, cls)] for the classes named in [except] clauses. *)
Definition isinstance (e : exn) (cls : exn_class) : bool :=
  match cls with
  | APIError =>
      exn_class_eqb (exn_cls e) APIError
      || exn_class_eqb (exn_cls e) AuthenticationError
  | ValueError =>
      exn_class_eqb (exn_cls e) ValueError
      || exn_class_eqb (exn_cls e) JSONDecodeError
  | _ => exn_class_eqb (exn_cls e) cls
  end.

(** The result of evaluating an expression: a value or a raised exception. *)
Inductive outcome (A : Type) : Type :=
| Ok (a : A)
| Raise (e : exn).
Arguments Ok {A} a.
Arguments Raise {A} e.

(** Sequencing: a raised exception skips the rest. *)
Definition bind {A B : Type} (m : outcome A) (k : A -> outcome B) : outcome B :=
  match m with
  | Ok a => k a
  | Raise e => Raise e
  end.

(** [type(v).__name__] *)
Definition type_name (v : value) : string :=
  match v with
  | VNone => "NoneType"
  | VBool _ => "bool"
  | VInt _ => "int"
  | VFloat _ => "float"
  | VStr _ => "str"
  | VList _ => "list"
  | VDict _ => "dict"
  end.

(** [bool(v)]: Python truthiness. *)
Definition truthy (v : value) : bool :=
  match v with
  | VNone => false
  | VBool b => b
  | VInt n => negb (n =? 0)
  | VFloat (S754_zero _) => false
  | VFloat _ => true
  | VStr s => negb (String.eqb s "")
  | VList xs => match xs with [] => false | _ => true end
  | VDict items => match items with [] => false | _ => true end
  end.

(** [needle in hay] on strings: substring test. *)
Fixpoint is_substring (needle hay : string) : bool :=
  String.prefix needle hay
  || match hay with
     | EmptyString => false
     | String _ rest => is_substring needle rest
     end.

(** [v == s] for a string [s]. *)
Definition eq_str (v : value) (s : string) : bool :=
  match v with
  | VStr t => String.eqb t s
  | _ => false
  end.

(** [dict.get(key)], [None] when the key is absent. *)
Fixpoint dict_get (items : list (string * value)) (key : string) : value :=
  match items with
  | [] => VNone
  | (k, v) :: rest => if String.eqb k key then v else dict_get rest key
  end.

Definition dict_has (items : list (string * value)) (key : string) : bool :=
  existsb (fun kv => String.eqb (fst kv) key) items.

(** [item in container] for a string [item]: key membership on a dict,
    element membership on a list, substring on a str, [TypeError] on the
    rest. *)
Definition contains (container : value) (item : string) : outcome bool :=
  match container with
  | VDict items => Ok (dict_has items item)
  | VList xs => Ok (existsb (fun x => eq_str x item) xs)
  | VStr s => Ok (is_substring item s)
  | v => Raise (mk_exn TypeError
                  ("argument of type '" ++ type_name v ++ "' is not iterable"))
  end.

(** [v.get(key)]: only a dict has the method. *)
Definition get (v : value) (key : string) : outcome value :=
  match v with
  | VDict items => Ok (dict_get items key)
  | v => Raise (mk_exn AttributeError
                  ("'" ++ type_name v ++ "' object has no attribute 'get'"))
  end.

(** [xs[i]] for a non-negative [i]. *)
Definition index {A : Type} (xs : list A) (i : nat) : outcome A :=
  match xs !! i with
  | Some x => Ok x
  | None => Raise (mk_exn IndexError "list index out of range")
  end.

(** *** [repr] of strings and of lists of strings *)

Definition hex_digit (n : N) : ascii :=
  match n with
  | 0 => "0" | 1 => "1" | 2 => "2" | 3 => "3" | 4 => "4" | 5 => "5"
  | 6 => "6" | 7 => "7" | 8 => "8" | 9 => "9" | 10 => "a" | 11 => "b"
  | 12 => "c" | 13 => "d" | 14 => "e" | _ => "f"
  end%N%char.

Definition dquote : ascii := ascii_of_N 34.

Definition printable (n : N) : bool :=
  negb ((n <? 32) || (n =? 127) || ((128 <=? n) && (n <=? 160)) || (n =? 173))%N.

Definition repr_char (quote c : ascii) : string :=
  let n := N_of_ascii c in
  if Ascii.eqb c "\" then "\\"
  else if Ascii.eqb c quote then String "\" (String quote "")
  else if (n =? 10)%N then "\n"
  else if (n =? 13)%N then "\r"
  else if (n =? 9)%N then "\t"
  else if printable n then String c ""
  else String "\" (String "x" (String (hex_digit (n / 16)) (String (hex_digit (n mod 16)) ""))).

Fixpoint has_char (c : ascii) (s : string) : bool :=
  match s with
  | EmptyString => false
  | String d rest => Ascii.eqb c d || has_char c rest
  end.

Fixpoint repr_body (quote : ascii) (s : string) : string :=
  match s with
  | EmptyString => ""
  | String c rest => repr_char quote c ++ repr_body quote rest
  end.

(** [repr(s)]: single quotes unless the string has a single quote and no
    double quote. *)
Definition repr_str (s : string) : string :=
  let quote : ascii :=
    if has_char "'" s && negb (has_char dquote s) then dquote else "'"%char in
  String quote (repr_body quote s ++ String quote "").

Fixpoint join (sep : string) (xs : list string) : string :=
  match xs with
  | [] => ""
  | [x] => x
  | x :: rest => x ++ sep ++ join sep rest
  end.

(** [repr(xs)] for a list of strings, as an f-string field formats it. *)
Definition repr_list (xs : list string) : string :=
  "[" ++ join ", " (map repr_str xs) ++ "]".

End Py.

Declare Scope py_scope.
Delimit Scope py_scope with py.
Notation "x <- m ;; k" := (Py.bind m (fun x => k))
  (at level 100, m at next level, right associativity) : py_scope.

Import Py.

(** ** The process and its collaborators *)

Definition bytes : Type := list Byte.byte.

(** [requests.Response]: the fields the handler reads. *)
Record http_response : Type := mk_http_response {
  ok : bool;
  status_code : Z;
  content : bytes
}.

(** The object bound to [vision_client]: its method
    [label_detection(image=...)], read through [label_annotations] as the
    list of [label.description]. *)
Record VisionClient : Type := mk_VisionClient {
  client_label_detection : bytes -> outcome (list string)
}.

(** Everything the program calls outside the repository.
    - [json_loads s] is [json.loads(s)] for a [str]: the decoded value,
      or the exception raised, a [JSONDecodeError] for text that is not
      JSON, and also a [RecursionError] for text nested too deep or a
      [ValueError] for an integer literal with too many digits;
    - [make_vision_client creds_dict] is lines 37-43: the credentials
      written to a file, read back by
      [service_account.Credentials.from_service_account_file] and handed
      to [vision.ImageAnnotatorClient];
    - [requests_get url] is [requests.get(url)];
    - [chat_completions_create prompt] is the list of
      [choice.message.content] over the [choices] of
      [openai.chat.completions.create(...)] with the fixed model, system
      message and settings; a content may be [None];
    - [now_isoformat] is [datetime.now().isoformat()]. *)
Record World : Type := mk_World {
  json_loads : string -> outcome value;
  make_vision_client : value -> outcome VisionClient;
  requests_get : value -> outcome http_response;
  chat_completions_create : string -> outcome (list (option string));
  now_isoformat : string
}.

(** [json.loads(x)] where [x] may be [None]. *)
Definition json_loads_opt (w : World) (x : option string) : outcome value :=
  match x with
  | Some s => json_loads w s
  | None => Raise (mk_exn TypeError
      "the JSON object must be str, bytes or bytearray, not NoneType")
  end.

(** Process-wide state: [os.environ] and the module global
    [vision_client] ([None] when the start-up code could not build the
    client). *)
Record Server : Type := mk_Server {
  environ : gmap string string;
  vision_client : option VisionClient
}.

(** [os.getenv(name)] *)
Definition getenv (env : gmap string string) (name : string) : option string :=
  env !! name.

(** [not os.getenv(name)]: the variable is unset or empty. *)
Definition not_set (x : option string) : bool :=
  match x with
  | None => true
  | Some s => String.eqb s ""
  end.

(** ** Start-up (lines 16-51)

    The module-level code that binds [vision_client].  Every failure
    leaves it [None]: the inner [except] takes a [JSONDecodeError], the
    outer one every other exception. *)

Definition required_fields : list string :=
  ["type"; "project_id"; "private_key"; "client_email"].

(** [[f for f in fields if f not in creds_dict]] *)
Fixpoint missing_fields (fields : list string) (creds_dict : value)
  : outcome (list string) :=
  match fields with
  | [] => Ok []
  | f :: rest =>
      (present <- contains creds_dict f ;;
       missing <- missing_fields rest creds_dict ;;
       Ok (if present then missing else f :: missing))%py
  end.

Definition startup (w : World) (env : gmap string string) : option VisionClient :=
  if not_set (getenv env "GOOGLE_CREDENTIALS") then None
  else
    match json_loads_opt w (getenv env "GOOGLE_CREDENTIALS") with
    | Ok creds_dict =>
        match missing_fields required_fields creds_dict with
        | Ok (_ :: _) => None
        | Ok [] =>
            match make_vision_client w creds_dict with
            | Ok client => Some client
            | Raise _ => None
            end
        | Raise _ => None
        end
    | Raise _ => None
    end.

(** The process after start-up in the environment [env]. *)
Definition booted (w : World) (env : gmap string string) : Server :=
  {| environ := env; vision_client := startup w env |}.

(** ** [check_credentials] *)

Record CredentialStatus : Type := mk_status {
  google : bool;
  openai : bool;
  errors : list string
}.

(** The dict [check_credentials] starts from. *)
Definition initial_status : CredentialStatus :=
  {| google := false; openai := false; errors := [] |}.

(** [status["errors"].append(msg)] *)
Definition append_error (st : CredentialStatus) (msg : string) : CredentialStatus :=
  {| google := google st; openai := openai st; errors := (errors st ++ [msg])%list |}.

(** [status["google"] = True] *)
Definition set_google (st : CredentialStatus) : CredentialStatus :=
  {| google := true; openai := openai st; errors := errors st |}.

(** [status["openai"] = True] *)
Definition set_openai (st : CredentialStatus) : CredentialStatus :=
  {| google := google st; openai := true; errors := errors st |}.

(** Lines 63-76: the Google part of [check_credentials]. *)
Definition check_google (w : World) (env : gmap string string)
    (status : CredentialStatus) : outcome CredentialStatus :=
  if not_set (getenv env "GOOGLE_CREDENTIALS") then
    Ok (append_error status "GOOGLE_CREDENTIALS not found in environment")
  else
    match json_loads_opt w (getenv env "GOOGLE_CREDENTIALS") with
    | Ok creds_dict =>
        (missing <- missing_fields required_fields creds_dict ;;
         match missing with
         | _ :: _ =>
             Ok (append_error status
                   ("Missing fields in Google credentials: " ++ repr_list missing))
         | [] => Ok (set_google status)
         end)%py
    | Raise e =>
        if isinstance e JSONDecodeError then
          Ok (append_error status
                ("Invalid Google credentials JSON: " ++ str_exn e))
        else Raise e
    end.

(** [api_key.startswith('sk-') and len(api_key) > 20] *)
Definition key_format_ok (api_key : string) : bool :=
  String.prefix "sk-" api_key && (20 <? Z.of_nat (String.length api_key)).

(** Lines 78-86: the OpenAI part of [check_credentials]. *)
Definition check_openai (env : gmap string string)
    (status : CredentialStatus) : CredentialStatus :=
  if not_set (getenv env "OPENAI_API_KEY") then
    append_error status "OPENAI_API_KEY not found in environment"
  else
    match getenv env "OPENAI_API_KEY" with
    | Some api_key =>
        if key_format_ok api_key then set_openai status
        else append_error status "Invalid OpenAI API key format"
    | None => status       (* not reached: the variable is set *)
    end.

Definition check_credentials (w : World) (env : gmap string string)
  : outcome CredentialStatus :=
  let status := initial_status in
  (status <- check_google w env status ;;
   Ok (check_openai env status))%py.

(** ** The prompt (lines 144-163) *)

Definition nl : string := String (ascii_of_N 10) "".
Definition Q : string := String dquote "".

Definition prompt_head : string :=
  nl ++ "        Based on these Vision AI labels for a clothing item: ".

Definition prompt_fields : string :=
  nl ++ "        "
  ++ nl ++ "        Generate a detailed JSON object describing the item. For each field, make an educated guess based on the labels and common clothing characteristics."
  ++ nl ++ "        "
  ++ nl ++ "        Required fields:"
  ++ nl ++ "        {"
  ++ nl ++ "          " ++ Q ++ "color" ++ Q ++ ": " ++ Q ++ "Describe the main color(s) of the item. If unclear, make a reasonable guess based on similar items" ++ Q ++ ","
  ++ nl ++ "          " ++ Q ++ "collar_type" ++ Q ++ ": " ++ Q ++ "Describe the collar style (e.g., crew neck, v-neck, polo, etc.). If not visible, use 'unknown'" ++ Q ++ ","
  ++ nl ++ "          " ++ Q ++ "sleeve_type" ++ Q ++ ": " ++ Q ++ "Describe the sleeve style (e.g., short sleeve, long sleeve, etc.)" ++ Q ++ ","
  ++ nl ++ "          " ++ Q ++ "fit" ++ Q ++ ": " ++ Q ++ "Describe how the item appears to fit (e.g., regular, loose, fitted)" ++ Q ++ ","
  ++ nl ++ "          " ++ Q ++ "style" ++ Q ++ ": " ++ Q ++ "Specify if the item is blank, graphic, or embellished" ++ Q ++ ","
  ++ nl ++ "          " ++ Q ++ "pattern" ++ Q ++ ": " ++ Q ++ "Describe any visible pattern or state 'solid' if none" ++ Q
  ++ nl ++ "        }"
  ++ nl
  ++ nl ++ "        The labels indicate this is an '".

Definition prompt_tail : string :=
  "' item."
  ++ nl ++ "        Analyze these labels and provide specific, confident descriptions even if some details are implied rather than explicitly stated."
  ++ nl ++ "        "
  ++ nl ++ "        Respond ONLY with the JSON object, no additional text."
  ++ nl ++ "        ".

(** [labels[4] if len(labels) > 4 else "clothing"] *)
Definition fifth_label (labels : list string) : outcome string :=
  if 4 <? Z.of_nat (length labels) then index labels 4 else Ok "clothing".

(** The f-string bound to [prompt]. *)
Definition build_prompt (labels : list string) : outcome string :=
  (fifth <- fifth_label labels ;;
   Ok (prompt_head ++ repr_list labels ++ prompt_fields ++ fifth ++ prompt_tail))%py.

(** ** Requests, responses and the handler monad *)

Inductive http_method : Type := POST | OPTIONS.

(** A request as the handlers see it: its method and what
    [request.get_json()] does (the decoded body, [None] included, or the
    exception Flask raises for a body it cannot decode). *)
Record Request : Type := mk_Request {
  method : http_method;
  get_json : outcome value
}.

Inductive payload : Type :=
| Json (v : value)       (* [jsonify(v)] *)
| Text (s : string).

Record response : Type := mk_response { body : payload; http_status : Z }.

(** The calls a handler makes, in program order. *)
Inductive event : Type :=
| CallCheckCredentials
| CallGetJson
| CallRequestsGet (url : value)
| CallLabelDetection (image : bytes)
| CallChatCompletion (prompt : string)
| CallJsonLoads (text : option string).

(** Where control is after a statement. *)
Inductive flow (A : Type) : Type :=
| Next (a : A)
| Return (r : response)
| Throw (e : exn).
Arguments Next {A} a.
Arguments Return {A} r.
Arguments Throw {A} e.

Definition handler (A : Type) : Type := list event -> flow A * list event.

Module Handler.

Definition ret {A : Type} (a : A) : handler A := fun t => (Next a, t).

Definition bind {A B : Type} (m : handler A) (k : A -> handler B) : handler B :=
  fun t =>
    match m t with
    | (Next a, t') => k a t'
    | (Return r, t') => (Return r, t')
    | (Throw e, t') => (Throw e, t')
    end.

(** [return r] *)
Definition return_ {A : Type} (r : response) : handler A := fun t => (Return r, t).

(** An expression evaluated without a call worth recording. *)
Definition eval {A : Type} (o : outcome A) : handler A :=
  fun t => match o with
           | Ok a => (Next a, t)
           | Raise e => (Throw e, t)
           end.

(** A recorded call. *)
Definition call {A : Type} (ev : event) (o : outcome A) : handler A :=
  fun t => match o with
           | Ok a => (Next a, (t ++ [ev])%list)
           | Raise e => (Throw e, (t ++ [ev])%list)
           end.

(** [try: m except ...]: [clauses e] is the body of the first matching
    [except] clause, [None] when no clause matches. *)
Definition try_except {A : Type} (m : handler A)
    (clauses : exn -> option (handler A)) : handler A :=
  fun t =>
    match m t with
    | (Throw e, t') =>
        match clauses e with
        | Some h => h t'
        | None => (Throw e, t')
        end
    | res => res
    end.

End Handler.

Declare Scope handler_scope.
Delimit Scope handler_scope with handler.
Notation "x <- m ;; k" := (Handler.bind m (fun x => k))
  (at level 100, m at next level, right associativity) : handler_scope.

(** What Flask gets back from a view function. *)
Inductive served : Type :=
| Responded (r : response)
| Unhandled (e : exn).

Definition run_view (h : handler Empty_set) : served * list event :=
  match h [] with
  | (Return r, t) => (Responded r, t)
  | (Throw e, t) => (Unhandled e, t)
  | (Next a, _) => match a with end
  end.

(** ** The [/analyze] view (lines 94-213) *)

Definition error_body (msg : string) : payload :=
  Json (VDict [("error", VStr msg)]).

Definition error_details_body (msg : string) (details : value) : payload :=
  Json (VDict [("error", VStr msg); ("details", details)]).

Definition str_or_none (x : option string) : value :=
  match x with
  | Some s => VStr s
  | None => VNone
  end.

Definition success_body (specifics : option string) (labels : list string) : payload :=
  Json (VDict [("success", VBool true);
               ("itemSpecifics", str_or_none specifics);
               ("labels", VList (map VStr labels))]).

Import Handler.

(** Lines 165-200: the generation call and the check of its output. *)
Definition generate_specifics (w : World) (prompt : string)
  : handler (option string) :=
  try_except
    (choices <- call (CallChatCompletion prompt) (chat_completions_create w prompt) ;;
     specifics <- eval (index choices 0) ;;
     _ <- try_except
            (call (CallJsonLoads specifics) (json_loads_opt w specifics))
            (fun e =>
               if isinstance e JSONDecodeError then
                 Some (return_ {| body := error_body "Invalid JSON response from OpenAI";
                                  http_status := 500 |})
               else None) ;;
     ret specifics)%handler
    (fun e =>
       if isinstance e AuthenticationError then
         Some (return_ {| body := error_body "OpenAI API key is invalid";
                          http_status := 500 |})
       else if isinstance e APIError then
         Some (return_ {| body := error_body ("OpenAI API Error: " ++ str_exn e);
                          http_status := 500 |})
       else
         Some (return_ {| body := error_body ("Error generating specifics: " ++ str_exn e);
                          http_status := 500 |})).

(** Lines 100-208: the body of the outer [try]. *)
Definition analyze_body (w : World) (srv : Server) (req : Request)
  : handler Empty_set :=
  (cred_status <- call CallCheckCredentials (check_credentials w (environ srv)) ;;
   if negb (google cred_status) || negb (openai cred_status) then
     return_ {| body := error_details_body "Credential issues"
                          (VList (map VStr (errors cred_status)));
                http_status := 500 |}
   else
   match vision_client srv with
   | None =>
     return_ {| body := error_details_body "Google Vision client not initialized"
                          (VStr "Check server logs for initialization errors");
                http_status := 500 |}
   | Some client =>
   data <- call CallGetJson (get_json req) ;;
   if negb (truthy data) then
     return_ {| body := error_body "No JSON data received"; http_status := 400 |}
   else
   image_url <- eval (get data "imageUrl") ;;
   if negb (truthy image_url) then
     return_ {| body := error_body "No image URL provided"; http_status := 400 |}
   else
   img_response <- call (CallRequestsGet image_url) (requests_get w image_url) ;;
   if negb (ok img_response) then
     return_ {| body := error_body ("Failed to download image: "
                                    ++ pretty (status_code img_response));
                http_status := 400 |}
   else
   let image := content img_response in
   labels <- call (CallLabelDetection image) (client_label_detection client image) ;;
   prompt <- eval (build_prompt labels) ;;
   specifics <- generate_specifics w prompt ;;
   return_ {| body := success_body specifics labels; http_status := 200 |}
   end)%handler.

(** The clause of the outer [try]: any exception becomes a 500. *)
Definition boundary (e : exn) : option (handler Empty_set) :=
  Some (return_ {| body := error_body (str_exn e); http_status := 500 |}).

Definition analyze (w : World) (srv : Server) (req : Request)
  : handler Empty_set :=
  match method req with
  | OPTIONS => return_ {| body := Text ""; http_status := 204 |}
  | _ =>
      try_except (analyze_body w srv req) boundary
  end.

(** ** The [/status] view (lines 236-243) *)

Definition status_value (st : CredentialStatus) : value :=
  VDict [("google", VBool (google st));
         ("openai", VBool (openai st));
         ("errors", VList (map VStr (errors st)))].

Definition status (w : World) (srv : Server) : served :=
  match check_credentials w (environ srv) with
  | Ok cred_status =>
      Responded {| body := Json (VDict [("server", VStr "running");
                                        ("credentials", status_value cred_status);
                                        ("time", VStr (now_isoformat w))]);
                   http_status := 200 |}
  | Raise e => Unhandled e
  end.

(** ** Vocabulary of the statements *)

(** The API key is set, starts with [sk-] and has more than 20 characters. *)
Definition api_key_valid (env : gmap string string) : Prop :=
  exists api_key,
    getenv env "OPENAI_API_KEY" = Some api_key /\
    String.prefix "sk-" api_key = true /\
    (20 < String.length api_key)%nat.

(** One of the two messages the OpenAI part appends. *)
Definition openai_error (msg : string) : Prop :=
  msg = "OPENAI_API_KEY not found in environment" \/
  msg = "Invalid OpenAI API key format".

(** The decoded credentials are a [dict] without one of the required keys. *)
Definition lacks_required_key (items : list (string * value)) : Prop :=
  exists f, In f required_fields /\ dict_has items f = false.

(** The text of the prompt for [labels]. *)
Definition prompt_for (labels : list string) : string :=
  prompt_head ++ repr_list labels ++ prompt_fields
  ++ default "clothing" (labels !! 4%nat) ++ prompt_tail.

(** ** The runs of [/analyze]

    Every path through the handler, as a relation between the result
    handed to Flask and the calls made.  [analyze_run] shows that the
    handler always follows one of them. *)

(** The bodies of the responses, written out. *)
Definition error_json (msg : string) : payload :=
  Json (VDict [("error", VStr msg)]).

Definition error_details_json (msg : string) (details : value) : payload :=
  Json (VDict [("error", VStr msg); ("details", details)]).

Definition success_json (text : string) (labels : list string) : payload :=
  Json (VDict [("success", VBool true);
               ("itemSpecifics", VStr text);
               ("labels", VList (map VStr labels))]).

Definition failed (code : Z) (msg : string) : served :=
  Responded {| body := Json (VDict [("error", VStr msg)]); http_status := code |}.

(** The message chosen by the [except] clauses around the generation call. *)
Definition generation_error (e : exn) : string :=
  if isinstance e AuthenticationError then "OpenAI API key is invalid"
  else if isinstance e APIError then "OpenAI API Error: " ++ str_exn e
  else "Error generating specifics: " ++ str_exn e.

Section Runs.

Variable w : World.
Variable srv : Server.
Variable req : Request.

Definition credentials_ok : Prop :=
  exists st, check_credentials w (environ srv) = Ok st
             /\ google st = true /\ openai st = true.

(** The handler got past the credential checks. *)
Definition ready (client : VisionClient) : Prop :=
  method req <> OPTIONS /\ credentials_ok /\ vision_client srv = Some client.

(** The request carries a truthy [imageUrl]. *)
Definition has_url (url : value) : Prop :=
  exists data, get_json req = Ok data /\ truthy data = true
               /\ get data "imageUrl" = Ok url /\ truthy url = true.

Definition downloaded (url : value) (img : http_response) : Prop :=
  requests_get w url = Ok img /\ ok img = true.

(** Download and label detection succeeded; [prompt] is the text built
    from the labels. *)
Definition labelled (client : VisionClient) (url : value) (img : http_response)
    (labels : list string) (prompt : string) : Prop :=
  ready client /\ has_url url /\ downloaded url img
  /\ client_label_detection client (content img) = Ok labels
  /\ build_prompt labels = Ok prompt.

Definition trace_credentials : list event := [CallCheckCredentials].
Definition trace_input : list event := [CallCheckCredentials; CallGetJson].
Definition trace_download (url : value) : list event :=
  [CallCheckCredentials; CallGetJson; CallRequestsGet url].
Definition trace_labels (url : value) (img : http_response) : list event :=
  [CallCheckCredentials; CallGetJson; CallRequestsGet url;
   CallLabelDetection (content img)].
Definition trace_generate (url : value) (img : http_response) (prompt : string)
  : list event :=
  [CallCheckCredentials; CallGetJson; CallRequestsGet url;
   CallLabelDetection (content img); CallChatCompletion prompt].
Definition trace_validate (url : value) (img : http_response) (prompt : string)
    (text : option string) : list event :=
  [CallCheckCredentials; CallGetJson; CallRequestsGet url;
   CallLabelDetection (content img); CallChatCompletion prompt;
   CallJsonLoads text].

Inductive Run : served -> list event -> Prop :=
| run_preflight :
    method req = OPTIONS ->
    Run (Responded {| body := Text ""; http_status := 204 |}) []
| run_credentials_raise e :
    method req <> OPTIONS ->
    check_credentials w (environ srv) = Raise e ->
    Run (failed 500 (str_exn e)) trace_credentials
| run_credential_issues st :
    method req <> OPTIONS ->
    check_credentials w (environ srv) = Ok st ->
    google st && openai st = false ->
    Run (Responded {| body := error_details_json "Credential issues"
                                (VList (map VStr (errors st)));
                      http_status := 500 |})
        trace_credentials
| run_no_client :
    method req <> OPTIONS ->
    credentials_ok ->
    vision_client srv = None ->
    Run (Responded {| body := error_details_json "Google Vision client not initialized"
                                (VStr "Check server logs for initialization errors");
                      http_status := 500 |})
        trace_credentials
| run_body_raise client e :
    ready client ->
    get_json req = Raise e ->
    Run (failed 500 (str_exn e)) trace_input
| run_no_data client data :
    ready client ->
    get_json req = Ok data ->
    truthy data = false ->
    Run (failed 400 "No JSON data received") trace_input
| run_not_dict client data e :
    ready client ->
    get_json req = Ok data ->
    truthy data = true ->
    get data "imageUrl" = Raise e ->
    Run (failed 500 (str_exn e)) trace_input
| run_no_url client data url :
    ready client ->
    get_json req = Ok data ->
    truthy data = true ->
    get data "imageUrl" = Ok url ->
    truthy url = false ->
    Run (failed 400 "No image URL provided") trace_input
| run_download_raise client url e :
    ready client ->
    has_url url ->
    requests_get w url = Raise e ->
    Run (failed 500 (str_exn e)) (trace_download url)
| run_download_failed client url img :
    ready client ->
    has_url url ->
    requests_get w url = Ok img ->
    ok img = false ->
    Run (failed 400 ("Failed to download image: " ++ pretty (status_code img)))
        (trace_download url)
| run_labels_raise client url img e :
    ready client ->
    has_url url ->
    downloaded url img ->
    client_label_detection client (content img) = Raise e ->
    Run (failed 500 (str_exn e)) (trace_labels url img)
| run_generate_raise client url img labels prompt e :
    labelled client url img labels prompt ->
    chat_completions_create w prompt = Raise e ->
    Run (failed 500 (generation_error e)) (trace_generate url img prompt)
| run_no_choice client url img labels prompt :
    labelled client url img labels prompt ->
    chat_completions_create w prompt = Ok [] ->
    Run (failed 500 "Error generating specifics: list index out of range")
        (trace_generate url img prompt)
| run_no_content client url img labels prompt rest :
    labelled client url img labels prompt ->
    chat_completions_create w prompt = Ok (None :: rest) ->
    Run (failed 500 "Error generating specifics: the JSON object must be str, bytes or bytearray, not NoneType")
        (trace_validate url img prompt None)
| run_invalid_json client url img labels prompt text rest e :
    labelled client url img labels prompt ->
    chat_completions_create w prompt = Ok (Some text :: rest) ->
    json_loads w text = Raise e ->
    isinstance e JSONDecodeError = true ->
    Run (failed 500 "Invalid JSON response from OpenAI")
        (trace_validate url img prompt (Some text))
| run_output_raise client url img labels prompt text rest e :
    labelled client url img labels prompt ->
    chat_completions_create w prompt = Ok (Some text :: rest) ->
    json_loads w text = Raise e ->
    isinstance e JSONDecodeError = false ->
    Run (failed 500 (generation_error e))
        (trace_validate url img prompt (Some text))
| run_success client url img labels prompt text rest v :
    labelled client url img labels prompt ->
    chat_completions_create w prompt = Ok (Some text :: rest) ->
    json_loads w text = Ok v ->
    Run (Responded {| body := success_json text labels; http_status := 200 |})
        (trace_validate url img prompt (Some text)).

End Runs.

(** The calls that leave the process for a collaborator. *)
Definition collaborator_call (ev : event) : bool :=
  match ev with
  | CallRequestsGet _ | CallLabelDetection _ | CallChatCompletion _ => true
  | CallCheckCredentials | CallGetJson | CallJsonLoads _ => false
  end.

(** The request has no truthy [imageUrl]: the body cannot be decoded, is
    falsy, is not a [dict], or its [imageUrl] is absent or falsy. *)
Definition no_image_url (req : Request) : Prop :=
  forall url, ~ has_url req url.

(** The body is a JSON object with the key [key]. *)
Definition body_has_key (p : payload) (key : string) : bool :=
  match p with
  | Json (VDict items) => dict_has items key
  | _ => false
  end.

Definition item_specifics_keys : list string :=
  ["color"; "collar_type"; "sleeve_type"; "fit"; "style"; "pattern"].

(** [v] is an object whose keys are exactly [keys]. *)
Definition has_exactly_keys (v : value) (keys : list string) : bool :=
  match v with
  | VDict items =>
      forallb (fun k => dict_has items k) keys
      && forallb (fun kv => existsb (String.eqb (fst kv)) keys) items
  | _ => false
  end.

(** The states of the pipeline and the step each call belongs to. *)
Inductive stage : Type :=
| ValidatingInput
| CheckingCredentials
| Downloading
| Labeling
| Prompting
| Generating
| ValidatingOutput.

Definition stage_of (ev : event) : stage :=
  match ev with
  | CallCheckCredentials => CheckingCredentials
  | CallGetJson => ValidatingInput
  | CallRequestsGet _ => Downloading
  | CallLabelDetection _ => Labeling
  | CallChatCompletion _ => Generating
  | CallJsonLoads _ => ValidatingOutput
  end.

(** Position of a state in the order the specification lists them. *)
Definition spec_rank (s : stage) : nat :=
  match s with
  | ValidatingInput => 1
  | CheckingCredentials => 2
  | Downloading => 3
  | Labeling => 4
  | Prompting => 5
  | Generating => 6
  | ValidatingOutput => 7
  end.

(** Position of a state in the order the handler goes through them. *)
Definition code_rank (s : stage) : nat :=
  match s with
  | CheckingCredentials => 1
  | ValidatingInput => 2
  | Downloading => 3
  | Labeling => 4
  | Prompting => 5
  | Generating => 6
  | ValidatingOutput => 7
  end.

Fixpoint increasing (ranks : list nat) : bool :=
  match ranks with
  | a :: (b :: _) as rest => (a <? b)%nat && increasing rest
  | _ => true
  end.

(** Two processes answer the call [ev] alike. *)
Definition same_answer (w1 w2 : World) (srv1 srv2 : Server) (ev : event) : Prop :=
  match ev with
  | CallCheckCredentials =>
      check_credentials w1 (environ srv1) = check_credentials w2 (environ srv2)
      /\ (vision_client srv1 = None <-> vision_client srv2 = None)
  | CallGetJson => True
  | CallRequestsGet url => requests_get w1 url = requests_get w2 url
  | CallLabelDetection image =>
      forall c1 c2,
        vision_client srv1 = Some c1 -> vision_client srv2 = Some c2 ->
        client_label_detection c1 image = client_label_detection c2 image
  | CallChatCompletion prompt =>
      chat_completions_create w1 prompt = chat_completions_create w2 prompt
  | CallJsonLoads text => json_loads_opt w1 text = json_loads_opt w2 text
  end.
(** ** Sample worlds

    Concrete collaborators for the closed examples below.  The decoder is
    a finite table of JSON texts and the values Python's [json.loads]
    gives for them; [deep_text] ends in a [RecursionError] and any other
    text in a [JSONDecodeError]. *)

Module Sample.

Definition quoted (s : string) : string := Q ++ s ++ Q.

(** [{"type": "service_account", "project_id": "demo", "private_key": "k",
      "client_email": "a@b.c"}] *)
Definition creds_text : string :=
  "{" ++ quoted "type" ++ ": " ++ quoted "service_account" ++ ", "
  ++ quoted "project_id" ++ ": " ++ quoted "demo" ++ ", "
  ++ quoted "private_key" ++ ": " ++ quoted "k" ++ ", "
  ++ quoted "client_email" ++ ": " ++ quoted "a@b.c" ++ "}".

Definition creds_value : value :=
  VDict [("type", VStr "service_account"); ("project_id", VStr "demo");
         ("private_key", VStr "k"); ("client_email", VStr "a@b.c")].

(** [["type", "project_id", "private_key", "client_email"]]: a JSON array. *)
Definition array_text : string :=
  "[" ++ quoted "type" ++ ", " ++ quoted "project_id" ++ ", "
  ++ quoted "private_key" ++ ", " ++ quoted "client_email" ++ "]".

Definition array_value : value :=
  VList [VStr "type"; VStr "project_id"; VStr "private_key"; VStr "client_email"].

(** [{"color": "blue", ..., "pattern": "solid"}] *)
Definition specifics_text : string :=
  "{" ++ quoted "color" ++ ": " ++ quoted "blue" ++ ", "
  ++ quoted "collar_type" ++ ": " ++ quoted "polo" ++ ", "
  ++ quoted "sleeve_type" ++ ": " ++ quoted "short sleeve" ++ ", "
  ++ quoted "fit" ++ ": " ++ quoted "regular" ++ ", "
  ++ quoted "style" ++ ": " ++ quoted "blank" ++ ", "
  ++ quoted "pattern" ++ ": " ++ quoted "solid" ++ "}".

Definition specifics_value : value :=
  VDict [("color", VStr "blue"); ("collar_type", VStr "polo");
         ("sleeve_type", VStr "short sleeve"); ("fit", VStr "regular");
         ("style", VStr "blank"); ("pattern", VStr "solid")].

Definition decode_table : list (string * value) :=
  [(creds_text, creds_value);
   (array_text, array_value);
   ("5", VInt 5);
   (specifics_text, specifics_value);
   ("{}", VDict [])].

Fixpoint decode (table : list (string * value)) (s : string) : outcome value :=
  match table with
  | [] => Raise (mk_exn JSONDecodeError "Expecting value: line 1 column 1 (char 0)")
  | (text, v) :: rest => if String.eqb text s then Ok v else decode rest s
  end.

Fixpoint replicate_char (n : nat) (c : ascii) : string :=
  match n with
  | O => ""
  | S n => String c (replicate_char n c)
  end.

(** Three thousand opening brackets: not JSON, and too deep for the
    decoder, which gives up with [RecursionError]. *)
Definition deep_text : string := replicate_char 3000 "[".

Definition loads (s : string) : outcome value :=
  if String.eqb s deep_text then
    Raise (mk_exn RecursionError
             "maximum recursion depth exceeded while decoding a JSON array from a unicode string")
  else decode decode_table s.

Definition image_url : string := "https://example.com/shirt.jpg".
Definition image_bytes : bytes := [Byte.xff; Byte.xd8; Byte.xff].

Definition labels : list string :=
  ["Clothing"; "Sleeve"; "Collar"; "Blue"; "Polo shirt"; "Button"].

Definition fetch (url : value) : outcome http_response :=
  if eq_str url image_url then
    Ok {| ok := true; status_code := 200; content := image_bytes |}
  else Ok {| ok := false; status_code := 404; content := [] |}.

Definition client : VisionClient :=
  {| client_label_detection := fun _ => Ok labels |}.

(** The client library accepts a service-account object only. *)
Definition make_client (creds_dict : value) : outcome VisionClient :=
  match creds_dict with
  | VDict _ => Ok client
  | _ => Raise (mk_exn AttributeError "'list' object has no attribute 'keys'")
  end.

(** A world whose generator answers every prompt with [reply]. *)
Definition world (reply : string) : World :=
  {| json_loads := loads;
     make_vision_client := make_client;
     requests_get := fetch;
     chat_completions_create := fun _ => Ok [Some reply];
     now_isoformat := "2024-01-01T00:00:00" |}.

Definition api_key : string := "sk-0123456789abcdefghij".

(** The environment with the two variables set as given. *)
Definition env (creds : option string) (key : option string) : gmap string string :=
  match creds with
  | Some c => <["GOOGLE_CREDENTIALS" := c]>
  | None => fun m => m
  end
    (match key with
     | Some k => {["OPENAI_API_KEY" := k]}
     | None => ∅
     end).

(** The process started in that environment. *)
Definition server (creds : option string) (key : option string) : Server :=
  booted (world "{}") (env creds key).

Definition good_server : Server := server (Some creds_text) (Some api_key).

Definition post (data : value) : Request :=
  {| method := POST; get_json := Ok data |}.

Definition good_request : Request := post (VDict [("imageUrl", VStr image_url)]).

(** A decodable body without [imageUrl]. *)
Definition no_url_body : value := VDict [("note", VStr "no url")].

(** A second process: another clock, another answer for URLs the first
    one does not know, one more environment variable, a client of its own
    that answers alike on the image. *)
Definition other_world (reply : string) : World :=
  {| json_loads := loads;
     make_vision_client := make_client;
     requests_get := fun url =>
       if eq_str url image_url then fetch url
       else Raise (mk_exn OtherException "Connection refused");
     chat_completions_create := fun _ => Ok [Some reply];
     now_isoformat := "2024-06-30T12:00:00" |}.

Definition other_client : VisionClient :=
  {| client_label_detection := fun image =>
       match image with
       | [] => Ok []
       | _ => Ok labels
       end |}.

Definition other_server : Server :=
  {| environ := <["PORT" := "8080"]> (environ good_server);
     vision_client := Some other_client |}.

End Sample.


(** ** The remaining views (lines 90-92, 216-234) *)

Module Views.

(** [/]: a liveness text. *)
Definition index : served :=
  Responded {| body := Text "eBay Auto Specifics API is running!";
               http_status := 200 |}.

(** [/test]: echoes the decoded body; nothing catches what
    [request.get_json()] raises. *)
Definition test (req : Request) : served :=
  match get_json req with
  | Ok received =>
      Responded {| body := Json (VDict [("success", VBool true);
                                        ("message", VStr "Test successful");
                                        ("received", received)]);
                   http_status := 200 |}
  | Raise e => Unhandled e
  end.

(** [/ping] *)
Definition ping (w : World) : served :=
  Responded {| body := Json (VDict [("status", VStr "ok");
                                    ("time", VStr (now_isoformat w))]);
               http_status := 200 |}.

(** [after_request]: logs and hands the response on. *)
Definition after_request (r : response) : response := r.

End Views.

(** ** More vocabulary *)

(** [item in container] where the test is defined: on a dict, a list and
    a str. *)
Definition is_container (v : value) : bool :=
  match v with
  | VDict _ | VList _ | VStr _ => true
  | _ => false
  end.

Definition member (v : value) (item : string) : bool :=
  match v with
  | VDict items => dict_has items item
  | VList xs => existsb (fun x => eq_str x item) xs
  | VStr s => is_substring item s
  | _ => false
  end.

(** The required fields that are not keys of the object [items], in the
    order of [required_fields]. *)
Definition absent_fields (items : list (string * value)) : list string :=
  filter (fun f => dict_has items f = false) required_fields.

(** The message the [except] clauses choose for an exception of the
    generation call, by its class. *)
Definition generation_message (e : exn) : string :=
  match exn_cls e with
  | AuthenticationError => "OpenAI API key is invalid"
  | APIError => "OpenAI API Error: " ++ exn_msg e
  | _ => "Error generating specifics: " ++ exn_msg e
  end.

(** Every character of [s] satisfies [p]. *)
Fixpoint all_chars (p : ascii -> bool) (s : string) : bool :=
  match s with
  | EmptyString => true
  | String c rest => p c && all_chars p rest
  end.

Definition printable_char (c : ascii) : bool := printable (N_of_ascii c).

(** How often a call of the stage [s] occurs in a trace. *)
Definition calls_of (s : stage) (t : list event) : nat :=
  length (filter (fun ev => code_rank (stage_of ev) = code_rank s) t).

(** ** More sample worlds *)

Module Cases.

(** A world like [Sample.world] whose generator call ends as [answer]
    and whose download of [down_url] fails to connect. *)
Definition down_url : string := "https://example.com/down.jpg".

Definition world (answer : outcome (list (option string))) : World :=
  {| json_loads := Sample.loads;
     make_vision_client := Sample.make_client;
     requests_get := fun url =>
       if eq_str url down_url
       then Raise (mk_exn OtherException "Connection refused")
       else Sample.fetch url;
     chat_completions_create := fun _ => answer;
     now_isoformat := "2024-01-01T00:00:00" |}.

(** A client whose call fails. *)
Definition broken_client : VisionClient :=
  {| client_label_detection := fun _ =>
       Raise (mk_exn OtherException "503 Service Unavailable") |}.

Definition broken_server : Server :=
  {| environ := environ Sample.good_server;
     vision_client := Some broken_client |}.

(** A client that finds no label. *)
Definition blind_client : VisionClient :=
  {| client_label_detection := fun _ => Ok [] |}.

Definition blind_server : Server :=
  {| environ := environ Sample.good_server;
     vision_client := Some blind_client |}.

(** A body Flask cannot decode. *)
Definition undecodable : Request :=
  {| method := POST;
     get_json := Raise (mk_exn OtherException "400 Bad Request: Failed to decode JSON object") |}.

Definition missing_url : string := "https://example.com/missing.jpg".

End Cases.
(** ** Properties of [check_credentials] *)

Section CheckCredentials.

Variable w : World.
Variable env : gmap string string.


(** The Google part never touches the [openai] flag, and it leaves either
    the flag set and no error, or the flag clear and one error. *)
Lemma check_google_result st :
  check_google w env initial_status = Ok st ->
  openai st = false /\
  ((google st = true /\ errors st = []) \/
   (google st = false /\ exists msg, errors st = [msg])).
Proof.
  unfold check_google.
  destruct (not_set (getenv env "GOOGLE_CREDENTIALS")).
  - intros [= <-]. cbn. eauto.
  - destruct (json_loads_opt w (getenv env "GOOGLE_CREDENTIALS")) as [creds_dict|e].
    + destruct (missing_fields required_fields creds_dict) as [[|f missing]|e'];
        cbn; [intros [= <-]; cbn; eauto ..|discriminate].
    + destruct (isinstance e JSONDecodeError); [|discriminate].
      intros [= <-]. cbn. eauto.
Qed.

(** The OpenAI part never touches the [google] flag and only appends. *)
Lemma check_openai_google st : google (check_openai env st) = google st.
Proof.
  unfold check_openai.
  destruct (not_set _); [reflexivity|].
  destruct (getenv env "OPENAI_API_KEY") as [k|]; [|reflexivity].
  destruct (key_format_ok k); reflexivity.
Qed.


Lemma key_format_ok_spec api_key :
  key_format_ok api_key = true <->
  String.prefix "sk-" api_key = true /\ (20 < String.length api_key)%nat.
Proof.
  unfold key_format_ok. rewrite andb_true_iff, Z.ltb_lt. intuition lia.
Qed.

Lemma check_openai_flag st :
  openai st = false ->
  (openai (check_openai env st) = true <-> api_key_valid env).
Proof.
  intros Hst. unfold check_openai, api_key_valid, not_set.
  destruct (getenv env "OPENAI_API_KEY") as [k|] eqn:Hk.
  - destruct (String.eqb_spec k "") as [->|Hne]; cbn.
    + rewrite Hst. split; [discriminate|].
      intros (k' & [= <-] & Hp & _). discriminate Hp.
    + destruct (key_format_ok k) eqn:Hf; cbn.
      * split; [|reflexivity]. intros _. exists k.
        apply key_format_ok_spec in Hf. tauto.
      * rewrite Hst. split; [discriminate|].
        intros (k' & [= <-] & Hp). apply key_format_ok_spec in Hp. congruence.
  - cbn. rewrite Hst. split; [discriminate|]. intros (k' & [=] & _).
Qed.


Lemma check_openai_error st :
  openai (check_openai env st) = false ->
  exists msg, errors (check_openai env st) = (errors st ++ [msg])%list /\ openai_error msg.
Proof.
  unfold check_openai, openai_error, not_set.
  destruct (getenv env "OPENAI_API_KEY") as [k|]; [|cbn; eauto].
  destruct (String.eqb k ""); [cbn; eauto|].
  destruct (key_format_ok k); cbn; [discriminate|eauto].
Qed.

Lemma check_credentials_inv st :
  check_credentials w env = Ok st ->
  exists st0, check_google w env initial_status = Ok st0 /\ st = check_openai env st0.
Proof.
  unfold check_credentials. fold initial_status.
  destruct (check_google w env initial_status) as [st0|e]; cbn; [|discriminate].
  intros [= <-]. eauto.
Qed.

(** X25. In the status [check_credentials] returns, [openai] is [True]
    exactly when the API key is present, starts with [sk-] and is longer
    than 20 characters; otherwise [openai] is [False] and the last entry
    of [errors] is the error appended for the key. *)
Theorem check_credentials_openai st :
  check_credentials w env = Ok st ->
  (openai st = true <-> api_key_valid env) /\
  (openai st = false ->
   exists msg, last (errors st) = Some msg /\ openai_error msg).
Proof.
  intros (st0 & Hg & ->)%check_credentials_inv.
  destruct (check_google_result _ Hg) as [Ho _].
  split; [exact (check_openai_flag _ Ho)|].
  intros (msg & -> & Hmsg)%check_openai_error.
  exists msg. split; [apply last_snoc|exact Hmsg].
Qed.

(** C10. In the status [check_credentials] returns, a [False] flag comes
    with a non-empty [errors] list; equivalently an empty [errors] list
    means both flags are [True]. *)
Theorem check_credentials_errors_invariant st :
  check_credentials w env = Ok st ->
  (google st = false \/ openai st = false -> errors st <> []) /\
  (errors st = [] -> google st = true /\ openai st = true).
Proof.
  intros (st0 & Hg & ->)%check_credentials_inv.
  destruct (check_google_result _ Hg) as [Ho Hcases].
  assert (Hflags : google (check_openai env st0) = false \/
                   openai (check_openai env st0) = false ->
                   errors (check_openai env st0) <> []).
  { rewrite check_openai_google. intros [Hgf|Hof].
    - destruct Hcases as [[Hgt _]|[_ [msg Herr]]]; [congruence|].
      unfold check_openai. destruct (not_set _); cbn.
      + rewrite Herr. discriminate.
      + destruct (getenv env "OPENAI_API_KEY") as [k|]; [|rewrite Herr; discriminate].
        destruct (key_format_ok k); cbn; rewrite Herr; discriminate.
    - destruct (check_openai_error _ Hof) as (msg & -> & _).
      intros Hnil. apply app_eq_nil in Hnil as [_ [=]]. }
  split; [exact Hflags|].
  intros Hnil.
  destruct (google (check_openai env st0)) eqn:Hg', (openai (check_openai env st0)) eqn:Ho';
    try (split; reflexivity); exfalso; apply Hflags; auto.
Qed.


Lemma missing_fields_dict fields items :
  exists missing,
    missing_fields fields (VDict items) = Ok missing /\
    forall f, In f missing <-> In f fields /\ dict_has items f = false.
Proof.
  induction fields as [|f fields (missing & Heq & Hin)]; cbn.
  - exists []. split; [reflexivity|]. cbn. tauto.
  - rewrite Heq. cbn. destruct (dict_has items f) eqn:Hf.
    + exists missing. split; [reflexivity|]. intros g. rewrite Hin.
      split; [tauto|]. intros [[<-|Hg] Hd]; [congruence|tauto].
    + exists (f :: missing). split; [reflexivity|]. intros g. cbn. rewrite Hin.
      split; [intros [<-|]; tauto|tauto].
Qed.

(** When [GOOGLE_CREDENTIALS] is unset or empty, is rejected by the
    decoder with a [JSONDecodeError], or decodes to a [dict] lacking a
    required key, [check_credentials] returns with [google] clear. *)
Lemma check_credentials_google_false :
  (not_set (getenv env "GOOGLE_CREDENTIALS") = true \/
   (exists text e, getenv env "GOOGLE_CREDENTIALS" = Some text /\
                   json_loads w text = Raise e /\
                   isinstance e JSONDecodeError = true) \/
   (exists text items, getenv env "GOOGLE_CREDENTIALS" = Some text /\
                       json_loads w text = Ok (VDict items) /\
                       lacks_required_key items)) ->
  exists st, check_credentials w env = Ok st /\ google st = false.
Proof.
  intros H.
  assert (exists st0, check_google w env initial_status = Ok st0 /\ google st0 = false)
    as (st0 & Hg & Hf).
  { unfold check_google.
    destruct (not_set (getenv env "GOOGLE_CREDENTIALS")) eqn:Hset; [cbn; eauto|].
    destruct H as [H|[(text & e & Henv & Hdec & He)|(text & items & Henv & Hdec & f & Hin & Hf)]];
      [discriminate| |]; rewrite Henv; unfold json_loads_opt; rewrite Hdec;
      cbn -[missing_fields isinstance].
    - rewrite He. cbn. eauto.
    - destruct (missing_fields_dict required_fields items) as (missing & -> & Hm).
      cbn. destruct missing as [|g missing]; [|cbn; eauto].
      exfalso. apply (Hm f). auto. }
  exists (check_openai env st0). split.
  - unfold check_credentials. fold initial_status. rewrite Hg. reflexivity.
  - rewrite check_openai_google. exact Hf.
Qed.

End CheckCredentials.

(** ** Properties of the prompt *)

(** The guard [len(labels) > 4] makes the index access safe. *)
Lemma fifth_label_ok (labels : list string) :
  fifth_label labels = Ok (default "clothing" (labels !! 4%nat)).
Proof.
  unfold fifth_label, index.
  destruct (Z.ltb_spec 4 (Z.of_nat (length labels))) as [Hlt|Hge].
  - destruct (lookup_lt_is_Some_2 labels 4%nat ltac:(lia)) as [label ->].
    reflexivity.
  - rewrite (lookup_ge_None_2 labels 4%nat) by lia. reflexivity.
Qed.


Lemma build_prompt_ok (labels : list string) :
  build_prompt labels = Ok (prompt_for labels).
Proof. unfold build_prompt. rewrite fifth_label_ok. reflexivity. Qed.

(** C5. Prompt construction never raises: with fewer than five labels
    (none included) the text has the literal [clothing] where the label
    at index 4 would stand, and with five or more it has that label. *)
Theorem build_prompt_fifth_label (labels : list string) :
  exists fifth,
    build_prompt labels
    = Ok (prompt_head ++ repr_list labels ++ prompt_fields ++ fifth ++ prompt_tail) /\
    ((length labels < 5)%nat -> fifth = "clothing") /\
    ((5 <= length labels)%nat -> labels !! 4%nat = Some fifth).
Proof.
  exists (default "clothing" (labels !! 4%nat)).
  split; [apply build_prompt_ok|]. split; intros Hlen.
  - rewrite (lookup_ge_None_2 labels 4%nat) by lia. reflexivity.
  - destruct (lookup_lt_is_Some_2 labels 4%nat ltac:(lia)) as [label ->].
    reflexivity.
Qed.


Lemma generate_specifics_cases (w : World) (prompt : string) (t : list event) :
  generate_specifics w prompt t =
  match chat_completions_create w prompt with
  | Raise e =>
      (Return {| body := error_json (generation_error e); http_status := 500 |},
       (t ++ [CallChatCompletion prompt])%list)
  | Ok [] =>
      (Return {| body := error_json "Error generating specifics: list index out of range";
                 http_status := 500 |},
       (t ++ [CallChatCompletion prompt])%list)
  | Ok (None :: _) =>
      (Return {| body := error_json "Error generating specifics: the JSON object must be str, bytes or bytearray, not NoneType";
                 http_status := 500 |},
       ((t ++ [CallChatCompletion prompt]) ++ [CallJsonLoads None])%list)
  | Ok (Some text :: _) =>
      match json_loads w text with
      | Raise e =>
          (Return {| body := error_json
                               (if isinstance e JSONDecodeError
                                then "Invalid JSON response from OpenAI"
                                else generation_error e);
                     http_status := 500 |},
           ((t ++ [CallChatCompletion prompt]) ++ [CallJsonLoads (Some text)])%list)
      | Ok _ =>
          (Next (Some text),
           ((t ++ [CallChatCompletion prompt]) ++ [CallJsonLoads (Some text)])%list)
      end
  end.
Proof.
  unfold generate_specifics, try_except, Handler.bind, call, eval, generation_error.
  destruct (chat_completions_create w prompt) as [[|[text|] rest]|e]; cbn.
  - reflexivity.
  - destruct (json_loads w text) as [v|e]; [reflexivity|].
    destruct e as [[] msg]; reflexivity.
  - reflexivity.
  - destruct e as [[] msg]; reflexivity.
Qed.

Lemma analyze_not_preflight (w : World) (srv : Server) (req : Request) :
  method req <> OPTIONS ->
  analyze w srv req = try_except (analyze_body w srv req) boundary.
Proof. unfold analyze. destruct (method req); [reflexivity|congruence]. Qed.

Ltac run_leaf c :=
  cbn [app]; intros [= <- <-];
  eapply c;
  repeat match goal with
         | |- _ /\ _ => split
         | |- exists _, _ => eexists
         | |- build_prompt _ = _ => apply build_prompt_ok
         | |- _ => eassumption
         | |- _ => progress unfold ready, has_url, downloaded, labelled, credentials_ok
         end.

(** Every execution of the handler is one of the runs. *)
Lemma analyze_run (w : World) (srv : Server) (req : Request) res t :
  run_view (analyze w srv req) = (res, t) ->
  Run w srv req res t.
Proof.
  assert (method req = OPTIONS \/ method req <> OPTIONS) as [Hm|Hpost]
    by (destruct (method req); auto; right; discriminate).
  { unfold run_view, analyze, return_. rewrite Hm. run_leaf run_preflight. }
  rewrite analyze_not_preflight by exact Hpost.
  unfold run_view, boundary, try_except, analyze_body, Handler.bind, call, eval, return_.
  destruct (check_credentials w (environ srv)) as [st|e] eqn:Hcred;
    [|run_leaf run_credentials_raise].
  destruct (google st) eqn:Hg, (openai st) eqn:Ho; cbn [negb orb andb].
  2-4: run_leaf run_credential_issues; rewrite Hg, Ho; reflexivity.
  destruct (vision_client srv) as [client|] eqn:Hclient; [|run_leaf run_no_client].
  destruct (get_json req) as [data|e] eqn:Hdata; [|run_leaf run_body_raise].
  destruct (truthy data) eqn:Htd; cbn [negb]; [|run_leaf run_no_data].
  destruct (get data "imageUrl") as [url|e] eqn:Hget; [|run_leaf run_not_dict].
  destruct (truthy url) eqn:Htu; cbn [negb]; [|run_leaf run_no_url].
  destruct (requests_get w url) as [img|e] eqn:Hreq; [|run_leaf run_download_raise].
  destruct (ok img) eqn:Hok; cbn [negb]; [|run_leaf run_download_failed].
  destruct (client_label_detection client (content img)) as [labels|e] eqn:Hlab;
    [|run_leaf run_labels_raise].
  rewrite build_prompt_ok, generate_specifics_cases.
  destruct (chat_completions_create w (prompt_for labels)) as [[|[text|] rest]|e] eqn:Hchat.
  - run_leaf run_no_choice.
  - destruct (json_loads w text) as [v|e] eqn:Hdec; [run_leaf run_success|].
    destruct (isinstance e JSONDecodeError) eqn:He;
      [run_leaf run_invalid_json|run_leaf run_output_raise].
  - run_leaf run_no_content.
  - run_leaf run_generate_raise.
Qed.

(** Conversely, a run determines what the handler does. *)
Lemma run_analyze (w : World) (srv : Server) (req : Request) res t :
  Run w srv req res t ->
  run_view (analyze w srv req) = (res, t).
Proof.
  intros HR.
  destruct HR;
    repeat match goal with
           | H : labelled _ _ _ _ _ _ _ _ |- _ =>
               destruct H as (? & ? & ? & ? & ?)
           | H : ready _ _ _ _ |- _ => destruct H as (? & ? & ?)
           | H : credentials_ok _ _ |- _ => destruct H as (? & ? & ? & ?)
           | H : has_url _ _ |- _ => destruct H as (? & ? & ? & ? & ?)
           | H : downloaded _ _ _ |- _ => destruct H as (? & ?)
           end.
  1: { unfold run_view, analyze, return_. rewrite H. reflexivity. }
  all: rewrite analyze_not_preflight by assumption.
  all: unfold run_view, boundary, try_except, analyze_body, Handler.bind, call, eval, return_.
  all: repeat match goal with
              | H : ?x = _ |- context [?x] => rewrite H; cbn [negb orb andb app]
              | |- context [generate_specifics] => rewrite generate_specifics_cases
              end.
  all: try reflexivity.
  destruct (google st), (openai st); try discriminate; reflexivity.
Qed.

(** ** The claims about [/analyze] *)


(** Membership in the trace of a run, resolved event by event. *)
Ltac in_trace H :=
  unfold trace_credentials, trace_input, trace_download, trace_labels,
    trace_generate, trace_validate in H;
  cbn [In] in H;
  repeat match type of H with
         | _ \/ _ => destruct H as [H|H]
         | False => destruct H
         end;
  try discriminate H.



(** C1 as stated fails: the generator may answer with JSON that has none
    of the six keys (here the empty object), and the handler still
    returns the 200 success body with that text. *)
Lemma success_without_required_keys :
  (run_view (analyze (Sample.world "{}") Sample.good_server Sample.good_request)).1
  = Responded {| body := success_json "{}" Sample.labels; http_status := 200 |}
  /\ json_loads (Sample.world "{}") "{}" = Ok (VDict [])
  /\ has_exactly_keys (VDict []) item_specifics_keys = false.
Proof. repeat split; vm_compute; reflexivity. Qed.

(** C1, amended. With valid credentials, an initialised Vision client, a
    truthy [imageUrl], a successful download and label detection, and a
    generator whose first choice is the text [text]: if [json.loads]
    accepts the text, the handler returns 200 with [success: true],
    [itemSpecifics] the text as received and the labels; if it raises,
    the handler returns a 500, "Invalid JSON response from OpenAI" for a
    [JSONDecodeError] and the message of the generation call's clauses
    for any other exception.  Nothing is checked about the keys of the
    text. *)
Theorem analyze_success_returns_raw_output (w : World) (srv : Server) (req : Request)
    client url img labels prompt text rest :
  labelled w srv req client url img labels prompt ->
  chat_completions_create w prompt = Ok (Some text :: rest) ->
  run_view (analyze w srv req)
  = (match json_loads w text with
     | Ok _ =>
         Responded {| body := Json (VDict [("success", VBool true);
                                           ("itemSpecifics", VStr text);
                                           ("labels", VList (map VStr labels))]);
                      http_status := 200 |}
     | Raise e =>
         Responded {| body := Json (VDict [("error",
                                            VStr (if isinstance e JSONDecodeError
                                                  then "Invalid JSON response from OpenAI"
                                                  else generation_message e))]);
                      http_status := 500 |}
     end,
     trace_validate url img prompt (Some text)).
Proof.
  intros Hlab Hchat. apply run_analyze.
  destruct (json_loads w text) as [v|e] eqn:Hdec.
  - eapply run_success; eassumption.
  - destruct (isinstance e JSONDecodeError) eqn:He.
    + eapply run_invalid_json; eassumption.
    + replace (generation_message e) with (generation_error e)
        by (destruct e as [[] m]; reflexivity).
      eapply run_output_raise; eassumption.
Qed.

Lemma sample_labelled reply :
  labelled (Sample.world reply) Sample.good_server Sample.good_request
    Sample.client (VStr Sample.image_url)
    {| ok := true; status_code := 200; content := Sample.image_bytes |}
    Sample.labels (prompt_for Sample.labels).
Proof.
  unfold labelled, ready, credentials_ok, has_url, downloaded.
  split; [split; [discriminate|split; [|reflexivity]]|].
  - exists {| google := true; openai := true; errors := [] |}.
    split; [vm_compute; reflexivity|split; reflexivity].
  - split; [|split; [split; reflexivity|split; [reflexivity|apply build_prompt_ok]]].
    exists (VDict [("imageUrl", VStr Sample.image_url)]).
    repeat split.
Qed.

Lemma analyze_success_returns_raw_output_witness :
  run_view (analyze (Sample.world Sample.specifics_text)
              Sample.good_server Sample.good_request)
  = (Responded {| body := success_json Sample.specifics_text Sample.labels;
                  http_status := 200 |},
     trace_validate (VStr Sample.image_url)
       {| ok := true; status_code := 200; content := Sample.image_bytes |}
       (prompt_for Sample.labels) (Some Sample.specifics_text)).
Proof.
  exact (analyze_success_returns_raw_output
           (Sample.world Sample.specifics_text) Sample.good_server
           Sample.good_request Sample.client (VStr Sample.image_url)
           {| ok := true; status_code := 200; content := Sample.image_bytes |}
           Sample.labels (prompt_for Sample.labels) Sample.specifics_text []
           (sample_labelled Sample.specifics_text) eq_refl).
Defined.

(** C2 as stated fails: the credentials are checked before the body is
    looked at, so a body without [imageUrl] gets the 500 of the
    credential check when the credentials are not set. *)
Lemma missing_url_with_bad_credentials_is_500 :
  get_json (Sample.post Sample.no_url_body) = Ok Sample.no_url_body
  /\ get Sample.no_url_body "imageUrl" = Ok VNone
  /\ run_view (analyze (Sample.world "{}") (Sample.server None None)
                 (Sample.post Sample.no_url_body))
     = (Responded
          {| body := error_details_json "Credential issues"
                       (VList [VStr "GOOGLE_CREDENTIALS not found in environment";
                               VStr "OPENAI_API_KEY not found in environment"]);
             http_status := 500 |},
        [CallCheckCredentials]).
Proof. repeat split; vm_compute; reflexivity. Qed.

(** C2, amended. A request without a truthy [imageUrl] (body not
    decodable, falsy, not an object, or [imageUrl] absent or falsy) never
    reaches the download, the label detection or the generator, whatever
    the credentials; and when the credentials are valid, the Vision
    client is initialised and the decoded body is falsy or an object, the
    response is a 400. *)
Theorem no_image_url_calls_no_collaborator (w : World) (srv : Server) (req : Request)
    res t :
  run_view (analyze w srv req) = (res, t) ->
  no_image_url req ->
  (forall ev, In ev t -> collaborator_call ev = false) /\
  (forall client data,
     ready w srv req client ->
     get_json req = Ok data ->
     truthy data = false \/ (exists items, data = VDict items) ->
     exists msg, res = failed 400 msg).
Proof.
  intros Hrun Hno. apply analyze_run in Hrun.
  destruct Hrun;
    try match goal with H : has_url _ _ |- _ => destruct (Hno _ H) end;
    try match goal with
        | H : labelled _ _ _ _ _ _ _ _ |- _ =>
            destruct H as (_ & H & _); destruct (Hno _ H)
        end.
  all: split; [intros ev Hin; in_trace Hin; subst ev; reflexivity|].
  all: intros client' data' (Hm & (st' & Hc & Hg & Ho) & Hcl) Hdata Hshape.
  all: try congruence.
  - assert (st' = st) as -> by congruence.
    rewrite Hg, Ho in *. discriminate.
  - eauto.
  - assert (data' = data) as -> by congruence.
    destruct Hshape as [Hf|[items ->]]; [congruence|discriminate].
  - eauto.
Qed.

Lemma sample_no_url_body : no_image_url (Sample.post Sample.no_url_body).
Proof.
  intros url (data & Hdata & _ & Hget & Htruthy).
  injection Hdata as <-. injection Hget as <-. discriminate Htruthy.
Qed.

Lemma no_image_url_calls_no_collaborator_witness :
  (forall ev, In ev [CallCheckCredentials; CallGetJson] -> collaborator_call ev = false)
  /\ (forall client data,
        ready (Sample.world "{}") Sample.good_server
          (Sample.post Sample.no_url_body) client ->
        get_json (Sample.post Sample.no_url_body) = Ok data ->
        truthy data = false \/ (exists items, data = VDict items) ->
        exists msg, failed 400 "No image URL provided" = failed 400 msg).
Proof.
  apply (no_image_url_calls_no_collaborator (Sample.world "{}") Sample.good_server
           (Sample.post Sample.no_url_body)).
  - vm_compute. reflexivity.
  - exact sample_no_url_body.
Defined.

(** C3 as stated fails: the handler checks the credentials before it
    reads the body.  On a successful run the calls are not in the order of
    the specification's states, and a request with both a bad body and
    missing credentials fails at the credential check, the body unread. *)
Lemma credentials_checked_before_input :
  map stage_of
    (run_view (analyze (Sample.world Sample.specifics_text)
                 Sample.good_server Sample.good_request)).2
  = [CheckingCredentials; ValidatingInput; Downloading; Labeling;
     Generating; ValidatingOutput]
  /\ increasing (map spec_rank
                   [CheckingCredentials; ValidatingInput; Downloading; Labeling;
                    Generating; ValidatingOutput]) = false
  /\ run_view (analyze (Sample.world "{}") (Sample.server None None)
                 (Sample.post VNone))
     = (Responded
          {| body := error_details_json "Credential issues"
                       (VList [VStr "GOOGLE_CREDENTIALS not found in environment";
                               VStr "OPENAI_API_KEY not found in environment"]);
             http_status := 500 |},
        [CallCheckCredentials]).
Proof. repeat split; vm_compute; reflexivity. Qed.

Ltac step_facts :=
  unfold labelled, ready, has_url, downloaded, credentials_ok in *;
  repeat match goal with
         | H : _ /\ _ |- _ => destruct H
         | H : exists _, _ |- _ => destruct H
         end;
  unfold trace_credentials, trace_input, trace_download, trace_labels,
    trace_generate, trace_validate;
  cbn [In];
  repeat match goal with
         | |- _ /\ _ => split
         | |- exists _, _ => eexists
         | |- _ => eassumption
         | |- _ => reflexivity
         | |- _ \/ _ => solve [left; reflexivity] || right
         end.

(** C3, amended. The steps run in the order credential check, input
    validation, download, label detection (the prompt is built from its
    result), generation, output validation; and each step runs only when
    every step before it succeeded, so a failure ends the run there:
    the body is read only with valid credentials and an initialised
    client, the download needs a truthy [imageUrl], label detection a
    successful download, generation the labels and the prompt, the
    output check a generated choice, and a 200 an accepted output. *)
Theorem analyze_steps_in_code_order (w : World) (srv : Server) (req : Request) :
  let res := (run_view (analyze w srv req)).1 in
  let t := (run_view (analyze w srv req)).2 in
  increasing (map code_rank (map stage_of t)) = true /\
  (In CallGetJson t -> exists client, ready w srv req client) /\
  (forall url, In (CallRequestsGet url) t -> In CallGetJson t /\ has_url req url) /\
  (forall image, In (CallLabelDetection image) t ->
     exists url img,
       In (CallRequestsGet url) t /\ downloaded w url img /\ content img = image) /\
  (forall prompt, In (CallChatCompletion prompt) t ->
     exists client url img labels,
       In (CallLabelDetection (content img)) t
       /\ labelled w srv req client url img labels prompt) /\
  (forall text, In (CallJsonLoads text) t ->
     exists prompt rest,
       In (CallChatCompletion prompt) t
       /\ chat_completions_create w prompt = Ok (text :: rest)) /\
  (forall r, res = Responded r -> http_status r = 200 ->
     exists text v, In (CallJsonLoads (Some text)) t /\ json_loads w text = Ok v).
Proof.
  cbv zeta.
  destruct (run_view (analyze w srv req)) as [res t] eqn:Hrun. cbn [fst snd].
  apply analyze_run in Hrun.
  destruct Hrun.
  all: split; [reflexivity|].
  all: split; [intros Hin; in_trace Hin; step_facts|].
  all: split; [intros url' Hin; in_trace Hin; injection Hin as <-; step_facts|].
  all: split; [intros image' Hin; in_trace Hin; injection Hin as <-; step_facts|].
  all: split; [intros prompt' Hin; in_trace Hin; injection Hin as <-; step_facts|].
  all: split; [intros text' Hin; in_trace Hin; injection Hin as <-; step_facts|].
  all: unfold failed; intros r [= <-] Hstatus; try discriminate Hstatus.
  step_facts.
Qed.

(** Some constructor of [Run] applies, its premises among the hypotheses. *)
Ltac by_run :=
  let close :=
    unfold labelled, ready, has_url, downloaded, credentials_ok;
    repeat match goal with
           | |- _ /\ _ => split
           | |- exists _, _ => eexists
           | |- _ => eassumption
           end in
  first
    [ solve [eapply run_preflight; close]
    | solve [eapply run_credentials_raise; close]
    | solve [eapply run_credential_issues; close]
    | solve [eapply run_no_client; close]
    | solve [eapply run_body_raise; close]
    | solve [eapply run_no_data; close]
    | solve [eapply run_not_dict; close]
    | solve [eapply run_no_url; close]
    | solve [eapply run_download_raise; close]
    | solve [eapply run_download_failed; close]
    | solve [eapply run_labels_raise; close]
    | solve [eapply run_generate_raise; close]
    | solve [eapply run_no_choice; close]
    | solve [eapply run_no_content; close]
    | solve [eapply run_invalid_json; close]
    | solve [eapply run_output_raise; close]
    | solve [eapply run_success; close] ].

Ltac split_hyps :=
  repeat match goal with
         | H : _ /\ _ |- _ => destruct H
         | H : exists _, _ |- _ => destruct H
         | H : Forall _ (_ :: _) |- _ => apply Forall_cons in H as [? H]
         end.

(** The second process has a Vision client exactly when the first has. *)
Ltac same_client :=
  try match goal with
      | H1 : vision_client ?s1 = Some _,
        Hn : vision_client ?s1 = None <-> vision_client ?s2 = None |- _ =>
          let c2 := fresh "c2" in
          let Hc2 := fresh "Hc2" in
          destruct (vision_client s2) as [c2|] eqn:Hc2;
          [|rewrite (proj2 Hn eq_refl) in H1; discriminate H1]
      | H1 : vision_client ?s1 = None,
        Hn : vision_client ?s1 = None <-> vision_client ?s2 = None |- _ =>
          apply Hn in H1
      end;
  repeat match goal with
         | H : forall c1 c2, vision_client ?s1 = Some c1 -> _ -> _ = _,
           H1 : vision_client ?s1 = Some _ |- _ =>
             specialize (H _ _ H1 eq_refl)
         end.

(** Facts about the first process, restated for the second. *)
Ltac carry_over :=
  repeat match goal with
         | Heq : json_loads_opt _ (Some _) = json_loads_opt _ (Some _) |- _ =>
             cbn [json_loads_opt] in Heq
         | Heq : json_loads ?w ?text = json_loads _ _,
           H : json_loads ?w ?text = _ |- _ => rewrite Heq in H
         | Heq : check_credentials ?w ?e = check_credentials _ _,
           H : check_credentials ?w ?e = _ |- _ => rewrite Heq in H
         | Heq : requests_get ?w ?u = requests_get _ _,
           H : requests_get ?w ?u = _ |- _ => rewrite Heq in H
         | Heq : client_label_detection ?c ?i = client_label_detection _ _,
           H : client_label_detection ?c ?i = _ |- _ => rewrite Heq in H
         | Heq : chat_completions_create ?w ?p = chat_completions_create _ _,
           H : chat_completions_create ?w ?p = _ |- _ => rewrite Heq in H
         end.

(** A run carries over to a process that answers its calls alike. *)
Lemma run_same_answers w1 w2 srv1 srv2 req res t :
  Run w1 srv1 req res t ->
  Forall (same_answer w1 w2 srv1 srv2) t ->
  Run w2 srv2 req res t.
Proof.
  intros HR Hsame.
  destruct HR;
    unfold labelled, ready, has_url, downloaded, credentials_ok in *;
    unfold trace_credentials, trace_input, trace_download, trace_labels,
      trace_generate, trace_validate in *;
    split_hyps; cbn [same_answer] in *; split_hyps;
    same_client; carry_over; by_run.
Qed.

(** C8. When a second process (or the same one, later) answers every
    call the handler made as the first did, the same request gets the
    same response after the same calls; and the [labels] of a success
    body are the list the Vision client returned, in its order. *)
Theorem same_answers_same_response (w1 w2 : World) (srv1 srv2 : Server)
    (req : Request) res t :
  run_view (analyze w1 srv1 req) = (res, t) ->
  Forall (same_answer w1 w2 srv1 srv2) t ->
  run_view (analyze w2 srv2 req) = (res, t) /\
  (forall r, res = Responded r -> http_status r = 200 ->
     exists client image labels text,
       vision_client srv1 = Some client
       /\ In (CallLabelDetection image) t
       /\ client_label_detection client image = Ok labels
       /\ body r = Json (VDict [("success", VBool true);
                                ("itemSpecifics", VStr text);
                                ("labels", VList (map VStr labels))])).
Proof.
  intros Hrun Hsame. apply analyze_run in Hrun. split.
  - apply run_analyze. eapply run_same_answers; eassumption.
  - clear Hsame. intros r Hr Hstatus.
    destruct Hrun; unfold failed in Hr; injection Hr as <-;
      try discriminate Hstatus.
    unfold labelled, ready in *. split_hyps.
    do 4 eexists. split; [eassumption|]. split; [|split; [eassumption|reflexivity]].
    unfold trace_validate. cbn [In]. auto.
Qed.

Lemma same_answers_same_response_witness :
  run_view (analyze (Sample.other_world Sample.specifics_text)
              Sample.other_server Sample.good_request)
  = run_view (analyze (Sample.world Sample.specifics_text)
                Sample.good_server Sample.good_request).
Proof.
  assert (Hsame : Forall (same_answer (Sample.world Sample.specifics_text)
                            (Sample.other_world Sample.specifics_text)
                            Sample.good_server Sample.other_server)
                    (run_view (analyze (Sample.world Sample.specifics_text)
                                 Sample.good_server Sample.good_request)).2).
  { vm_compute. repeat constructor; try discriminate.
    intros c1 c2 [= <-] [= <-]. reflexivity. }
  exact (eq_trans
           (proj1 (same_answers_same_response
                     (Sample.world Sample.specifics_text)
                     (Sample.other_world Sample.specifics_text)
                     Sample.good_server Sample.other_server Sample.good_request
                     _ _ (surjective_pairing _) Hsame))
           (eq_sym (surjective_pairing _))).
Defined.


Lemma check_credentials_openai_witness :
  (false = true <->
   api_key_valid (environ (Sample.server (Some Sample.creds_text) (Some "sk-short"))))
  /\ (false = false ->
      exists msg, last ["Invalid OpenAI API key format"] = Some msg
                  /\ openai_error msg).
Proof.
  apply (check_credentials_openai (Sample.world "{}")
           (environ (Sample.server (Some Sample.creds_text) (Some "sk-short")))
           {| google := true; openai := false;
              errors := ["Invalid OpenAI API key format"] |}).
  vm_compute. reflexivity.
Defined.

Lemma check_credentials_errors_invariant_witness :
  (false = false \/ false = false ->
   ["GOOGLE_CREDENTIALS not found in environment";
    "OPENAI_API_KEY not found in environment"] <> [])
  /\ (["GOOGLE_CREDENTIALS not found in environment";
       "OPENAI_API_KEY not found in environment"] = [] ->
      false = true /\ false = true).
Proof.
  apply (check_credentials_errors_invariant (Sample.world "{}")
           (environ (Sample.server None None))
           {| google := false; openai := false;
              errors := ["GOOGLE_CREDENTIALS not found in environment";
                         "OPENAI_API_KEY not found in environment"] |}).
  vm_compute. reflexivity.
Defined.

(** ** [GOOGLE_CREDENTIALS] and the two views *)

(** With the [google] flag clear, [/status] reports it and [/analyze]
    answers 500 after the credential check alone. *)
Lemma google_false_views (w : World) (srv : Server) (req : Request) st :
  check_credentials w (environ srv) = Ok st ->
  google st = false ->
  method req <> OPTIONS ->
  status w srv
  = Responded {| body := Json (VDict [("server", VStr "running");
                                      ("credentials", status_value st);
                                      ("time", VStr (now_isoformat w))]);
                 http_status := 200 |}
  /\ dict_get [("google", VBool (google st)); ("openai", VBool (openai st));
               ("errors", VList (map VStr (errors st)))] "google" = VBool false
  /\ run_view (analyze w srv req)
     = (Responded {| body := error_details_json "Credential issues"
                               (VList (map VStr (errors st)));
                     http_status := 500 |},
        [CallCheckCredentials]).
Proof.
  intros Hc Hg Hm. split; [|split].
  - unfold status. rewrite Hc. reflexivity.
  - cbn. rewrite Hg. reflexivity.
  - apply run_analyze. eapply run_credential_issues; [exact Hm|exact Hc|].
    rewrite Hg. reflexivity.
Qed.

(** A decoded value that is a list holding the four names passes the
    membership tests meant for the keys of a dict. *)
Lemma check_credentials_array (w : World) (env : gmap string string) text :
  getenv env "GOOGLE_CREDENTIALS" = Some text ->
  text <> "" ->
  json_loads w text = Ok (VList (map VStr required_fields)) ->
  exists st, check_credentials w env = Ok st /\ google st = true.
Proof.
  intros Henv Hne Hdec.
  exists (check_openai env (set_google initial_status)). split.
  - unfold check_credentials, check_google, not_set. rewrite Henv.
    destruct (String.eqb_spec text ""); [contradiction|].
    unfold json_loads_opt. rewrite Hdec. reflexivity.
  - rewrite check_openai_google. reflexivity.
Qed.

(** A decoded value without membership test (a number, a boolean,
    [null]) makes [check_credentials] raise [TypeError]. *)
Lemma check_credentials_scalar (w : World) (env : gmap string string) text v :
  getenv env "GOOGLE_CREDENTIALS" = Some text ->
  text <> "" ->
  json_loads w text = Ok v ->
  (forall xs, v <> VList xs) -> (forall items, v <> VDict items) ->
  (forall s, v <> VStr s) ->
  check_credentials w env
  = Raise (mk_exn TypeError
             ("argument of type '" ++ type_name v ++ "' is not iterable")).
Proof.
  intros Henv Hne Hdec Hl Hd Hs.
  unfold check_credentials, check_google, not_set. rewrite Henv.
  destruct (String.eqb_spec text ""); [contradiction|].
  unfold json_loads_opt. rewrite Hdec.
  destruct v; try reflexivity; [destruct (Hs _ eq_refl)
                               |destruct (Hl _ eq_refl)
                               |destruct (Hd _ eq_refl)].
Qed.

(** A decoded [dict] with the four keys sets the [google] flag. *)
Lemma check_credentials_google_true (w : World) (env : gmap string string)
    text items :
  getenv env "GOOGLE_CREDENTIALS" = Some text ->
  text <> "" ->
  json_loads w text = Ok (VDict items) ->
  (forall f, In f required_fields -> dict_has items f = true) ->
  exists st, check_credentials w env = Ok st /\ google st = true.
Proof.
  intros Henv Hne Hdec Hkeys.
  exists (check_openai env (set_google initial_status)). split.
  - unfold check_credentials, check_google, not_set. rewrite Henv.
    destruct (String.eqb_spec text ""); [contradiction|].
    unfold json_loads_opt. rewrite Hdec. cbn -[missing_fields].
    destruct (missing_fields_dict required_fields items) as (missing & -> & Hm).
    destruct missing as [|g missing]; [reflexivity|].
    destruct (proj1 (Hm g) (or_introl eq_refl)) as [Hin Hhas].
    rewrite (Hkeys g Hin) in Hhas. discriminate.
  - rewrite check_openai_google. reflexivity.
Qed.

(** Start-up builds a client only from credentials that pass the check
    of [check_credentials] in the same environment. *)
Lemma startup_needs_google (w : World) (env : gmap string string) client :
  startup w env = Some client ->
  exists st, check_credentials w env = Ok st /\ google st = true.
Proof.
  unfold startup. intros Hs.
  exists (check_openai env (set_google initial_status)). split.
  - unfold check_credentials, check_google.
    destruct (not_set (getenv env "GOOGLE_CREDENTIALS")); [discriminate|].
    destruct (json_loads_opt w (getenv env "GOOGLE_CREDENTIALS")) as [creds_dict|e];
      [|discriminate].
    destruct (missing_fields required_fields creds_dict) as [[|f missing]|e];
      [reflexivity|discriminate..].
  - rewrite check_openai_google. reflexivity.
Qed.

(** C9 fails on the code when the Google part does not return.  With
    [GOOGLE_CREDENTIALS] the JSON number 5 and a well-formed API key,
    the membership test of line 70 raises [TypeError] before the key is
    looked at: [check_credentials] returns no status, so [openai] is not
    set although the key is present, starts with [sk-] and has more than
    20 characters.  The same happens when [json.loads] raises something
    other than [JSONDecodeError]. *)
Theorem api_key_unchecked_after_type_error :
  getenv (Sample.env (Some "5") (Some Sample.api_key)) "OPENAI_API_KEY"
  = Some Sample.api_key
  /\ String.prefix "sk-" Sample.api_key = true
  /\ (20 < String.length Sample.api_key)%nat
  /\ json_loads (Sample.world "{}") "5" = Ok (VInt 5)
  /\ check_credentials (Sample.world "{}") (Sample.env (Some "5") (Some Sample.api_key))
     = Raise (mk_exn TypeError "argument of type 'int' is not iterable")
  /\ check_credentials (Sample.world "{}")
       (Sample.env (Some Sample.deep_text) (Some Sample.api_key))
     = Raise (mk_exn RecursionError
                "maximum recursion depth exceeded while decoding a JSON array from a unicode string").
Proof. repeat split; vm_compute; solve [reflexivity | lia]. Qed.

(** C6 fails on the code for credentials that decode to something other
    than an object.  For the JSON array of the four names, which has no
    key at all, [/status] reports [google: true] and [/analyze] passes
    the credential check (here it stops at the missing client); for the
    JSON number 5 the membership test raises and [/status] hands Flask a
    [TypeError] instead of a report. *)
Theorem status_reports_google_for_array :
  json_loads (Sample.world "{}") Sample.array_text = Ok Sample.array_value
  /\ status (Sample.world "{}")
       (Sample.server (Some Sample.array_text) (Some Sample.api_key))
     = Responded
         {| body := Json (VDict [("server", VStr "running");
                                 ("credentials",
                                  VDict [("google", VBool true);
                                         ("openai", VBool true);
                                         ("errors", VList [])]);
                                 ("time", VStr "2024-01-01T00:00:00")]);
            http_status := 200 |}
  /\ run_view (analyze (Sample.world "{}")
                 (Sample.server (Some Sample.array_text) (Some Sample.api_key))
                 Sample.good_request)
     = (Responded
          {| body := error_details_json "Google Vision client not initialized"
                       (VStr "Check server logs for initialization errors");
             http_status := 500 |},
        [CallCheckCredentials])
  /\ status (Sample.world "{}")
       (Sample.server (Some "5") (Some Sample.api_key))
     = Unhandled (mk_exn TypeError "argument of type 'int' is not iterable").
Proof. repeat split; vm_compute; reflexivity. Qed.

(** ** Further properties of [check_credentials] and start-up *)

Lemma check_credentials_unfold (w : World) (env : gmap string string) :
  check_credentials w env
  = match check_google w env initial_status with
    | Ok st0 => Ok (check_openai env st0)
    | Raise e => Raise e
    end.
Proof. reflexivity. Qed.

(** The OpenAI part leaves [errors] alone when it sets the flag and
    appends one message when it does not. *)
Lemma check_openai_errors (env : gmap string string) st :
  openai st = false ->
  errors (check_openai env st)
  = if openai (check_openai env st) then errors st
    else (errors st ++
          [if not_set (getenv env "OPENAI_API_KEY")
           then "OPENAI_API_KEY not found in environment"
           else "Invalid OpenAI API key format"])%list.
Proof.
  intros Ho. unfold check_openai.
  destruct (not_set (getenv env "OPENAI_API_KEY")) eqn:Hset; cbn.
  - rewrite Ho. reflexivity.
  - destruct (getenv env "OPENAI_API_KEY") as [k|]; [|discriminate Hset].
    destruct (key_format_ok k); cbn; [reflexivity|rewrite Ho; reflexivity].
Qed.

(** X1. The status [check_credentials] returns has one error per flag
    that is [False], the one about the Google credentials first. *)
Theorem check_credentials_one_error_per_flag (w : World)
    (env : gmap string string) st :
  check_credentials w env = Ok st ->
  length (errors st)
  = ((if google st then 0 else 1) + (if openai st then 0 else 1))%nat
  /\ (google st = false -> openai st = false ->
      exists g o, errors st = [g; o] /\ openai_error o).
Proof.
  intros (st0 & Hg & ->)%check_credentials_inv.
  destruct (check_google_result _ _ _ Hg) as [Ho Hcases].
  rewrite check_openai_google, (check_openai_errors env st0 Ho).
  destruct Hcases as [[-> ->]|[-> [msg ->]]];
    destruct (openai (check_openai env st0)); cbn; split; try reflexivity;
    try discriminate.
  intros _ _. eexists; eexists. split; [reflexivity|].
  unfold openai_error. destruct (not_set _); auto.
Qed.

Lemma check_credentials_one_error_per_flag_witness :
  length ["GOOGLE_CREDENTIALS not found in environment";
          "OPENAI_API_KEY not found in environment"] = (1 + 1)%nat
  /\ (false = false -> false = false ->
      exists g o,
        ["GOOGLE_CREDENTIALS not found in environment";
         "OPENAI_API_KEY not found in environment"] = [g; o] /\ openai_error o).
Proof.
  apply (check_credentials_one_error_per_flag (Sample.world "{}")
           (Sample.env None None)
           {| google := false; openai := false;
              errors := ["GOOGLE_CREDENTIALS not found in environment";
                         "OPENAI_API_KEY not found in environment"] |}).
  vm_compute. reflexivity.
Defined.

(** X2. With [GOOGLE_CREDENTIALS] unset or empty, [check_credentials]
    returns with [google] clear and "GOOGLE_CREDENTIALS not found in
    environment" as the first error; the decoder is not consulted. *)
Theorem unset_google_credentials (w : World) (env : gmap string string) :
  not_set (getenv env "GOOGLE_CREDENTIALS") = true ->
  exists st,
    check_credentials w env = Ok st /\ google st = false
    /\ errors st !! 0%nat = Some "GOOGLE_CREDENTIALS not found in environment"
    /\ forall w', check_credentials w' env = Ok st.
Proof.
  intros Hset.
  exists (check_openai env
            (append_error initial_status "GOOGLE_CREDENTIALS not found in environment")).
  assert (Hall : forall w', check_credentials w' env
                            = Ok (check_openai env
                                    (append_error initial_status
                                       "GOOGLE_CREDENTIALS not found in environment"))).
  { intros w'. rewrite check_credentials_unfold. unfold check_google.
    rewrite Hset. reflexivity. }
  split; [apply Hall|]. split; [apply check_openai_google|]. split; [|exact Hall].
  rewrite check_openai_errors by reflexivity.
  destruct (openai (check_openai env _)); reflexivity.
Qed.

Lemma unset_google_credentials_witness :
  exists st,
    check_credentials (Sample.world "{}") (Sample.env (Some "") (Some Sample.api_key))
    = Ok st /\ google st = false
    /\ errors st !! 0%nat = Some "GOOGLE_CREDENTIALS not found in environment"
    /\ forall w', check_credentials w' (Sample.env (Some "") (Some Sample.api_key))
                  = Ok st.
Proof.
  apply (unset_google_credentials (Sample.world "{}")
           (Sample.env (Some "") (Some Sample.api_key))).
  vm_compute. reflexivity.
Defined.

(** X3. When [json.loads] raises on [GOOGLE_CREDENTIALS]: for a
    [JSONDecodeError] the status has [google] clear and its first error
    is "Invalid Google credentials JSON: " followed by the exception's
    message; any other exception (a [RecursionError], a [ValueError]) is
    not caught and leaves [check_credentials]. *)
Theorem rejected_google_credentials (w : World) (env : gmap string string)
    text e :
  getenv env "GOOGLE_CREDENTIALS" = Some text ->
  text <> "" ->
  json_loads w text = Raise e ->
  (isinstance e JSONDecodeError = true ->
   exists st,
     check_credentials w env = Ok st /\ google st = false
     /\ errors st !! 0%nat
        = Some ("Invalid Google credentials JSON: " ++ str_exn e))
  /\ (isinstance e JSONDecodeError = false -> check_credentials w env = Raise e).
Proof.
  intros Henv Hne Hdec.
  assert (Hg : check_google w env initial_status
               = if isinstance e JSONDecodeError
                 then Ok (append_error initial_status
                            ("Invalid Google credentials JSON: " ++ str_exn e))
                 else Raise e).
  { unfold check_google, not_set. rewrite Henv.
    destruct (String.eqb_spec text ""); [contradiction|].
    unfold json_loads_opt. rewrite Hdec. reflexivity. }
  rewrite check_credentials_unfold, Hg. split; intros ->; [|reflexivity].
  eexists. split; [reflexivity|]. split; [apply check_openai_google|].
  rewrite check_openai_errors by reflexivity.
  destruct (openai (check_openai env _)); reflexivity.
Qed.

Lemma rejected_google_credentials_witness :
  (isinstance (mk_exn JSONDecodeError "Expecting value: line 1 column 1 (char 0)")
     JSONDecodeError = true ->
   exists st,
     check_credentials (Sample.world "{}")
       (Sample.env (Some "not json") (Some Sample.api_key)) = Ok st
     /\ google st = false
     /\ errors st !! 0%nat
        = Some ("Invalid Google credentials JSON: "
                ++ "Expecting value: line 1 column 1 (char 0)"))
  /\ (isinstance (mk_exn JSONDecodeError "Expecting value: line 1 column 1 (char 0)")
        JSONDecodeError = false ->
      check_credentials (Sample.world "{}")
        (Sample.env (Some "not json") (Some Sample.api_key))
      = Raise (mk_exn JSONDecodeError "Expecting value: line 1 column 1 (char 0)")).
Proof.
  apply (rejected_google_credentials (Sample.world "{}")
           (Sample.env (Some "not json") (Some Sample.api_key)) "not json"
           (mk_exn JSONDecodeError "Expecting value: line 1 column 1 (char 0)")).
  - vm_compute. reflexivity.
  - discriminate.
  - vm_compute. reflexivity.
Defined.

(** On a dict, a list and a str the membership test returns. *)
Lemma contains_member (v : value) (f : string) :
  is_container v = true -> contains v f = Ok (member v f).
Proof. destruct v; try discriminate; reflexivity. Qed.

Lemma missing_fields_container (fields : list string) (v : value) :
  is_container v = true ->
  missing_fields fields v = Ok (filter (fun f => member v f = false) fields).
Proof.
  intros Hv. induction fields as [|f fields IH]; [reflexivity|].
  cbn [missing_fields]. rewrite (contains_member v f Hv), IH. cbn [Py.bind].
  rewrite filter_cons. destruct (member v f) eqn:Hf.
  - rewrite decide_False by discriminate. reflexivity.
  - rewrite decide_True by reflexivity. reflexivity.
Qed.

Lemma no_missing_field (fields : list string) (v : value) :
  filter (fun f => member v f = false) fields = []
  <-> forallb (member v) fields = true.
Proof.
  induction fields as [|f fields IH]; [cbn; tauto|].
  rewrite filter_cons. cbn [forallb]. destruct (member v f) eqn:Hf.
  - rewrite decide_False by discriminate. exact IH.
  - rewrite decide_True by reflexivity. cbn. split; discriminate.
Qed.

(** The Google part on credentials that decode to a container. *)
Lemma check_google_container (w : World) (env : gmap string string) text v :
  getenv env "GOOGLE_CREDENTIALS" = Some text ->
  text <> "" ->
  json_loads w text = Ok v ->
  is_container v = true ->
  check_google w env initial_status
  = Ok (match filter (fun f => member v f = false) required_fields with
        | [] => set_google initial_status
        | missing =>
            append_error initial_status
              ("Missing fields in Google credentials: " ++ repr_list missing)
        end).
Proof.
  intros Henv Hne Hdec Hv. unfold check_google, not_set. rewrite Henv.
  destruct (String.eqb_spec text ""); [contradiction|].
  unfold json_loads_opt. rewrite Hdec.
  rewrite (missing_fields_container required_fields v Hv). cbn [Py.bind].
  destruct (filter _ required_fields); reflexivity.
Qed.

(** X4. When [GOOGLE_CREDENTIALS] decodes to an object without some of
    the required keys, the status has [google] clear and its first
    error lists exactly the absent keys, in the order type, project_id,
    private_key, client_email. *)
Theorem missing_google_fields (w : World) (env : gmap string string) text items :
  getenv env "GOOGLE_CREDENTIALS" = Some text ->
  text <> "" ->
  json_loads w text = Ok (VDict items) ->
  absent_fields items <> [] ->
  exists st,
    check_credentials w env = Ok st /\ google st = false
    /\ errors st !! 0%nat
       = Some ("Missing fields in Google credentials: "
               ++ repr_list (absent_fields items)).
Proof.
  intros Henv Hne Hdec Habs.
  pose proof (check_google_container w env text (VDict items) Henv Hne Hdec eq_refl)
    as Hg.
  change (filter (fun f => member (VDict items) f = false) required_fields)
    with (absent_fields items) in Hg.
  destruct (absent_fields items) as [|f missing] eqn:Hm; [contradiction|].
  eexists. split; [rewrite check_credentials_unfold, Hg; reflexivity|].
  split; [apply check_openai_google|].
  rewrite check_openai_errors by reflexivity.
  destruct (openai (check_openai env _)); reflexivity.
Qed.

Lemma missing_google_fields_witness :
  exists st,
    check_credentials (Sample.world "{}")
      (Sample.env (Some "{}") (Some Sample.api_key)) = Ok st
    /\ google st = false
    /\ errors st !! 0%nat
       = Some ("Missing fields in Google credentials: "
               ++ repr_list (absent_fields [])).
Proof.
  apply (missing_google_fields (Sample.world "{}")
           (Sample.env (Some "{}") (Some Sample.api_key)) "{}" []).
  - vm_compute. reflexivity.
  - discriminate.
  - vm_compute. reflexivity.
  - vm_compute. discriminate.
Defined.

(** X5. When [GOOGLE_CREDENTIALS] decodes to a dict, a list or a str,
    [check_credentials] returns, and [google] is [True] exactly when
    each of the four names passes Python's [in]: a key of the dict, an
    element of the list, a substring of the str. *)
Theorem google_flag_by_membership (w : World) (env : gmap string string) text v :
  getenv env "GOOGLE_CREDENTIALS" = Some text ->
  text <> "" ->
  json_loads w text = Ok v ->
  is_container v = true ->
  exists st,
    check_credentials w env = Ok st
    /\ (google st = true <-> forallb (member v) required_fields = true).
Proof.
  intros Henv Hne Hdec Hv.
  pose proof (check_google_container w env text v Henv Hne Hdec Hv) as Hg.
  eexists. split; [rewrite check_credentials_unfold, Hg; reflexivity|].
  rewrite check_openai_google, <- no_missing_field.
  destruct (filter _ required_fields); cbn; split; congruence.
Qed.

Lemma google_flag_by_membership_witness :
  exists st,
    check_credentials (Sample.world "{}")
      (Sample.env (Some Sample.array_text) None) = Ok st
    /\ (google st = true
        <-> forallb (member Sample.array_value) required_fields = true).
Proof.
  apply (google_flag_by_membership (Sample.world "{}")
           (Sample.env (Some Sample.array_text) None) Sample.array_text).
  - vm_compute. reflexivity.
  - discriminate.
  - vm_compute. reflexivity.
  - reflexivity.
Defined.

(** X6. When [GOOGLE_CREDENTIALS] decodes to a number, a boolean or
    [null], the membership test raises [TypeError] out of
    [check_credentials]: [/status] passes the exception on to Flask, and
    [/analyze] turns it into a 500 carrying its message, after the
    credential check alone. *)
Theorem scalar_credentials_raise (w : World) (srv : Server) text v :
  getenv (environ srv) "GOOGLE_CREDENTIALS" = Some text ->
  text <> "" ->
  json_loads w text = Ok v ->
  is_container v = false ->
  let e := mk_exn TypeError
             ("argument of type '" ++ type_name v ++ "' is not iterable") in
  check_credentials w (environ srv) = Raise e
  /\ status w srv = Unhandled e
  /\ forall req, method req <> OPTIONS ->
       run_view (analyze w srv req) = (failed 500 (str_exn e), [CallCheckCredentials]).
Proof.
  intros Henv Hne Hdec Hv e.
  assert (Hc : check_credentials w (environ srv) = Raise e).
  { rewrite check_credentials_unfold. unfold check_google, not_set. rewrite Henv.
    destruct (String.eqb_spec text ""); [contradiction|].
    unfold json_loads_opt. rewrite Hdec.
    destruct v; try discriminate Hv; reflexivity. }
  split; [exact Hc|]. split.
  - unfold status. rewrite Hc. reflexivity.
  - intros req Hm. apply run_analyze. apply run_credentials_raise; assumption.
Qed.

Lemma scalar_credentials_raise_witness :
  check_credentials (Sample.world "{}")
    (environ (Sample.server (Some "5") (Some Sample.api_key)))
  = Raise (mk_exn TypeError "argument of type 'int' is not iterable")
  /\ status (Sample.world "{}") (Sample.server (Some "5") (Some Sample.api_key))
     = Unhandled (mk_exn TypeError "argument of type 'int' is not iterable")
  /\ forall req, method req <> OPTIONS ->
       run_view (analyze (Sample.world "{}")
                   (Sample.server (Some "5") (Some Sample.api_key)) req)
       = (failed 500 "argument of type 'int' is not iterable", [CallCheckCredentials]).
Proof.
  apply (scalar_credentials_raise (Sample.world "{}")
           (Sample.server (Some "5") (Some Sample.api_key)) "5" (VInt 5)).
  - vm_compute. reflexivity.
  - discriminate.
  - vm_compute. reflexivity.
  - reflexivity.
Defined.

(** X7. The error for the API key says "not found" when
    [OPENAI_API_KEY] is unset or the empty string, and "Invalid OpenAI
    API key format" when it is set to anything else that fails the
    format test. *)
Theorem openai_error_message (w : World) (env : gmap string string) st :
  check_credentials w env = Ok st ->
  openai st = false ->
  last (errors st)
  = Some (if not_set (getenv env "OPENAI_API_KEY")
          then "OPENAI_API_KEY not found in environment"
          else "Invalid OpenAI API key format").
Proof.
  intros (st0 & Hg & ->)%check_credentials_inv Ho.
  destruct (check_google_result _ _ _ Hg) as [Ho0 _].
  rewrite (check_openai_errors env st0 Ho0), Ho. apply last_snoc.
Qed.

Lemma openai_error_message_witness :
  last ["OPENAI_API_KEY not found in environment"]
  = Some (if not_set (getenv (Sample.env (Some Sample.creds_text) (Some ""))
                        "OPENAI_API_KEY")
          then "OPENAI_API_KEY not found in environment"
          else "Invalid OpenAI API key format").
Proof.
  apply (openai_error_message (Sample.world "{}")
           (Sample.env (Some Sample.creds_text) (Some ""))
           {| google := true; openai := false;
              errors := ["OPENAI_API_KEY not found in environment"] |}).
  - vm_compute. reflexivity.
  - reflexivity.
Defined.






(** ** Further properties of [/analyze] *)

(** X10. When a flag of the credential check is [False], [/analyze]
    answers 500 "Credential issues" after the credential check alone,
    and its [details] are the [errors] that [/status] reports for the
    same process. *)
Theorem credential_issue_details_match_status (w : World) (srv : Server)
    (req : Request) st :
  check_credentials w (environ srv) = Ok st ->
  google st && openai st = false ->
  method req <> OPTIONS ->
  run_view (analyze w srv req)
  = (Responded {| body := Json (VDict [("error", VStr "Credential issues");
                                       ("details", VList (map VStr (errors st)))]);
                  http_status := 500 |},
     [CallCheckCredentials])
  /\ status w srv
     = Responded
         {| body := Json (VDict [("server", VStr "running");
                                 ("credentials",
                                  VDict [("google", VBool (google st));
                                         ("openai", VBool (openai st));
                                         ("errors", VList (map VStr (errors st)))]);
                                 ("time", VStr (now_isoformat w))]);
            http_status := 200 |}.
Proof.
  intros Hc Hflags Hm. split.
  - apply run_analyze. eapply run_credential_issues; eassumption.
  - unfold status. rewrite Hc. reflexivity.
Qed.

Lemma credential_issue_details_match_status_witness :
  run_view (analyze (Sample.world "{}")
              (Sample.server (Some Sample.creds_text) (Some "sk-short"))
              Sample.good_request)
  = (Responded {| body := Json (VDict [("error", VStr "Credential issues");
                                       ("details",
                                        VList [VStr "Invalid OpenAI API key format"])]);
                  http_status := 500 |},
     [CallCheckCredentials])
  /\ status (Sample.world "{}")
       (Sample.server (Some Sample.creds_text) (Some "sk-short"))
     = Responded
         {| body := Json (VDict [("server", VStr "running");
                                 ("credentials",
                                  VDict [("google", VBool true);
                                         ("openai", VBool false);
                                         ("errors",
                                          VList [VStr "Invalid OpenAI API key format"])]);
                                 ("time", VStr "2024-01-01T00:00:00")]);
            http_status := 200 |}.
Proof.
  apply (credential_issue_details_match_status (Sample.world "{}")
           (Sample.server (Some Sample.creds_text) (Some "sk-short"))
           Sample.good_request
           {| google := true; openai := false;
              errors := ["Invalid OpenAI API key format"] |}).
  - vm_compute. reflexivity.
  - reflexivity.
  - discriminate.
Defined.

Ltac sample_ready_tac :=
  intros Hm; split; [exact Hm|split; [|reflexivity]];
  exists {| google := true; openai := true; errors := [] |};
  split; [vm_compute; reflexivity|split; reflexivity].

Lemma sample_ready reply req :
  method req <> OPTIONS ->
  ready (Sample.world reply) Sample.good_server req Sample.client.
Proof. sample_ready_tac. Qed.

Lemma cases_ready answer req :
  method req <> OPTIONS ->
  ready (Cases.world answer) Sample.good_server req Sample.client.
Proof. sample_ready_tac. Qed.

Lemma broken_ready reply req :
  method req <> OPTIONS ->
  ready (Sample.world reply) Cases.broken_server req Cases.broken_client.
Proof. sample_ready_tac. Qed.

Lemma post_has_url items url :
  dict_get items "imageUrl" = url ->
  truthy (VDict items) = true ->
  truthy url = true ->
  has_url (Sample.post (VDict items)) url.
Proof.
  intros <- Hd Hu. exists (VDict items). repeat split; assumption.
Qed.

(** X11. With the credentials in order, a body that makes
    [request.get_json()] raise is answered with 500 and the exception's
    message, not with 400; no collaborator is called. *)
Theorem undecodable_body_is_500 (w : World) (srv : Server) (req : Request)
    client e :
  ready w srv req client ->
  get_json req = Raise e ->
  run_view (analyze w srv req)
  = (failed 500 (str_exn e), [CallCheckCredentials; CallGetJson]).
Proof.
  intros Hr He. apply run_analyze. eapply run_body_raise; eassumption.
Qed.

Lemma undecodable_body_is_500_witness :
  run_view (analyze (Sample.world "{}") Sample.good_server Cases.undecodable)
  = (failed 500 "400 Bad Request: Failed to decode JSON object",
     [CallCheckCredentials; CallGetJson]).
Proof.
  apply (undecodable_body_is_500 (Sample.world "{}") Sample.good_server
           Cases.undecodable Sample.client
           (mk_exn OtherException "400 Bad Request: Failed to decode JSON object")).
  - apply sample_ready. discriminate.
  - reflexivity.
Defined.



(** X13. A decoded body that is falsy ([null], [false], 0, the empty
    string, list or object) is answered with 400 "No JSON data
    received"; the empty object in particular does not get "No image
    URL provided". *)
Theorem falsy_body_is_400 (w : World) (srv : Server) (req : Request)
    client data :
  ready w srv req client ->
  get_json req = Ok data ->
  truthy data = false ->
  run_view (analyze w srv req)
  = (failed 400 "No JSON data received", [CallCheckCredentials; CallGetJson]).
Proof.
  intros Hr Hd Ht. apply run_analyze. eapply run_no_data; eassumption.
Qed.

Lemma falsy_body_is_400_witness :
  run_view (analyze (Sample.world "{}") Sample.good_server (Sample.post (VDict [])))
  = (failed 400 "No JSON data received", [CallCheckCredentials; CallGetJson]).
Proof.
  apply (falsy_body_is_400 (Sample.world "{}") Sample.good_server
           (Sample.post (VDict [])) Sample.client (VDict [])).
  - apply sample_ready. discriminate.
  - reflexivity.
  - reflexivity.
Defined.

(** X14. A non-empty object whose [imageUrl] is absent or falsy
    ([null], [false], 0, empty) is answered with 400 "No image URL
    provided", without a download. *)
Theorem falsy_image_url_is_400 (w : World) (srv : Server) (req : Request)
    client items :
  ready w srv req client ->
  get_json req = Ok (VDict items) ->
  items <> [] ->
  truthy (dict_get items "imageUrl") = false ->
  run_view (analyze w srv req)
  = (failed 400 "No image URL provided", [CallCheckCredentials; CallGetJson]).
Proof.
  intros Hr Hd Hne Ht. apply run_analyze.
  eapply run_no_url; try eassumption; [|reflexivity].
  destruct items; [contradiction|reflexivity].
Qed.

Lemma falsy_image_url_is_400_witness :
  run_view (analyze (Sample.world "{}") Sample.good_server
              (Sample.post (VDict [("imageUrl", VStr "")])))
  = (failed 400 "No image URL provided", [CallCheckCredentials; CallGetJson]).
Proof.
  apply (falsy_image_url_is_400 (Sample.world "{}") Sample.good_server
           (Sample.post (VDict [("imageUrl", VStr "")])) Sample.client
           [("imageUrl", VStr "")]).
  - apply sample_ready. discriminate.
  - reflexivity.
  - discriminate.
  - reflexivity.
Defined.

(** X15. When the response to the download is not [ok], the answer is
    400 with the response's status code in the message, and the Vision
    client is not called. *)
Theorem failed_download_is_400 (w : World) (srv : Server) (req : Request)
    client url img :
  ready w srv req client ->
  has_url req url ->
  requests_get w url = Ok img ->
  ok img = false ->
  run_view (analyze w srv req)
  = (failed 400 ("Failed to download image: " ++ pretty (status_code img)),
     [CallCheckCredentials; CallGetJson; CallRequestsGet url]).
Proof.
  intros Hr Hu Hg Hok. apply run_analyze. eapply run_download_failed; eassumption.
Qed.

Lemma failed_download_is_400_witness :
  run_view (analyze (Sample.world "{}") Sample.good_server
              (Sample.post (VDict [("imageUrl", VStr Cases.missing_url)])))
  = (failed 400 "Failed to download image: 404",
     [CallCheckCredentials; CallGetJson; CallRequestsGet (VStr Cases.missing_url)]).
Proof.
  apply (failed_download_is_400 (Sample.world "{}") Sample.good_server
           (Sample.post (VDict [("imageUrl", VStr Cases.missing_url)])) Sample.client
           (VStr Cases.missing_url)
           {| ok := false; status_code := 404; content := [] |}).
  - apply sample_ready. discriminate.
  - apply post_has_url; reflexivity.
  - reflexivity.
  - reflexivity.
Defined.

(** X16. When [requests.get] raises, the answer is 500 with the
    exception's message, and the Vision client is not called. *)
Theorem download_exception_is_500 (w : World) (srv : Server) (req : Request)
    client url e :
  ready w srv req client ->
  has_url req url ->
  requests_get w url = Raise e ->
  run_view (analyze w srv req)
  = (failed 500 (str_exn e),
     [CallCheckCredentials; CallGetJson; CallRequestsGet url]).
Proof.
  intros Hr Hu Hg. apply run_analyze. eapply run_download_raise; eassumption.
Qed.

Lemma download_exception_is_500_witness :
  run_view (analyze (Cases.world (Ok [])) Sample.good_server
              (Sample.post (VDict [("imageUrl", VStr Cases.down_url)])))
  = (failed 500 "Connection refused",
     [CallCheckCredentials; CallGetJson; CallRequestsGet (VStr Cases.down_url)]).
Proof.
  apply (download_exception_is_500 (Cases.world (Ok [])) Sample.good_server
           (Sample.post (VDict [("imageUrl", VStr Cases.down_url)])) Sample.client
           (VStr Cases.down_url) (mk_exn OtherException "Connection refused")).
  - apply cases_ready. discriminate.
  - apply post_has_url; reflexivity.
  - reflexivity.
Defined.

(** X17. When the label-detection call raises, the answer is 500 with
    the exception's message; the failure is not passed over and the
    generator is not called. *)
Theorem label_failure_is_500 (w : World) (srv : Server) (req : Request)
    client url img e :
  ready w srv req client ->
  has_url req url ->
  downloaded w url img ->
  client_label_detection client (content img) = Raise e ->
  run_view (analyze w srv req)
  = (failed 500 (str_exn e),
     [CallCheckCredentials; CallGetJson; CallRequestsGet url;
      CallLabelDetection (content img)]).
Proof.
  intros Hr Hu Hd Hl. apply run_analyze. eapply run_labels_raise; eassumption.
Qed.

Lemma label_failure_is_500_witness :
  run_view (analyze (Sample.world "{}") Cases.broken_server Sample.good_request)
  = (failed 500 "503 Service Unavailable",
     [CallCheckCredentials; CallGetJson; CallRequestsGet (VStr Sample.image_url);
      CallLabelDetection Sample.image_bytes]).
Proof.
  apply (label_failure_is_500 (Sample.world "{}") Cases.broken_server
           Sample.good_request Cases.broken_client (VStr Sample.image_url)
           {| ok := true; status_code := 200; content := Sample.image_bytes |}
           (mk_exn OtherException "503 Service Unavailable")).
  - apply broken_ready. discriminate.
  - apply post_has_url; reflexivity.
  - split; reflexivity.
  - reflexivity.
Defined.

Lemma generation_error_message (e : exn) :
  generation_error e = generation_message e.
Proof. destruct e as [[] msg]; reflexivity. Qed.

(** X18. When the generation call raises, the answer is 500 and
    [json.loads] is not reached; the message is "OpenAI API key is
    invalid" for an [AuthenticationError] (although it is an [APIError]
    too), "OpenAI API Error: ..." for any other [APIError], and "Error
    generating specifics: ..." for the rest. *)
Theorem generation_errors_mapped (w : World) (srv : Server) (req : Request)
    client url img labels prompt e :
  labelled w srv req client url img labels prompt ->
  chat_completions_create w prompt = Raise e ->
  run_view (analyze w srv req)
  = (failed 500 (generation_message e),
     [CallCheckCredentials; CallGetJson; CallRequestsGet url;
      CallLabelDetection (content img); CallChatCompletion prompt]).
Proof.
  intros Hl Hc. rewrite <- generation_error_message.
  apply run_analyze. eapply run_generate_raise; eassumption.
Qed.

Lemma cases_labelled answer :
  labelled (Cases.world answer) Sample.good_server Sample.good_request
    Sample.client (VStr Sample.image_url)
    {| ok := true; status_code := 200; content := Sample.image_bytes |}
    Sample.labels (prompt_for Sample.labels).
Proof.
  split; [apply cases_ready; discriminate|].
  split; [apply post_has_url; reflexivity|].
  split; [split; reflexivity|]. split; [reflexivity|apply build_prompt_ok].
Qed.

Lemma generation_errors_mapped_witness :
  run_view (analyze
              (Cases.world (Raise (mk_exn AuthenticationError "Incorrect API key provided")))
              Sample.good_server Sample.good_request)
  = (failed 500 "OpenAI API key is invalid",
     [CallCheckCredentials; CallGetJson; CallRequestsGet (VStr Sample.image_url);
      CallLabelDetection Sample.image_bytes;
      CallChatCompletion (prompt_for Sample.labels)]).
Proof.
  exact (generation_errors_mapped _ _ _ _ _ _ _ _
           (mk_exn AuthenticationError "Incorrect API key provided")
           (cases_labelled _) eq_refl).
Defined.

(** X19. When the generator returns no choice at all, [choices[0]]
    raises [IndexError] and the answer is 500 "Error generating
    specifics: list index out of range". *)
Theorem empty_choices_is_500 (w : World) (srv : Server) (req : Request)
    client url img labels prompt :
  labelled w srv req client url img labels prompt ->
  chat_completions_create w prompt = Ok [] ->
  run_view (analyze w srv req)
  = (failed 500 "Error generating specifics: list index out of range",
     [CallCheckCredentials; CallGetJson; CallRequestsGet url;
      CallLabelDetection (content img); CallChatCompletion prompt]).
Proof.
  intros Hl Hc. apply run_analyze. eapply run_no_choice; eassumption.
Qed.

Lemma empty_choices_is_500_witness :
  run_view (analyze (Cases.world (Ok [])) Sample.good_server Sample.good_request)
  = (failed 500 "Error generating specifics: list index out of range",
     [CallCheckCredentials; CallGetJson; CallRequestsGet (VStr Sample.image_url);
      CallLabelDetection Sample.image_bytes;
      CallChatCompletion (prompt_for Sample.labels)]).
Proof.
  exact (empty_choices_is_500 _ _ _ _ _ _ _ _ (cases_labelled _) eq_refl).
Defined.

(** X20. When the content of the first choice is [None], [json.loads]
    raises [TypeError], which is not a [JSONDecodeError]: the answer is
    500 "Error generating specifics: ..." and not the invalid-JSON
    error. *)
Theorem none_content_is_500 (w : World) (srv : Server) (req : Request)
    client url img labels prompt rest :
  labelled w srv req client url img labels prompt ->
  chat_completions_create w prompt = Ok (None :: rest) ->
  run_view (analyze w srv req)
  = (failed 500 "Error generating specifics: the JSON object must be str, bytes or bytearray, not NoneType",
     [CallCheckCredentials; CallGetJson; CallRequestsGet url;
      CallLabelDetection (content img); CallChatCompletion prompt;
      CallJsonLoads None]).
Proof.
  intros Hl Hc. apply run_analyze. eapply run_no_content; eassumption.
Qed.

Lemma none_content_is_500_witness :
  run_view (analyze (Cases.world (Ok [None])) Sample.good_server Sample.good_request)
  = (failed 500 "Error generating specifics: the JSON object must be str, bytes or bytearray, not NoneType",
     [CallCheckCredentials; CallGetJson; CallRequestsGet (VStr Sample.image_url);
      CallLabelDetection Sample.image_bytes;
      CallChatCompletion (prompt_for Sample.labels); CallJsonLoads None]).
Proof.
  exact (none_content_is_500 _ _ _ _ _ _ _ _ [] (cases_labelled _) eq_refl).
Defined.

(** X21. No step is repeated: in every run each of the credential
    check, the reading of the body, the download, the label detection,
    the generation call and the check of its output happens at most
    once. *)
Theorem at_most_one_call_each (w : World) (srv : Server) (req : Request)
    (s : stage) :
  (calls_of s (run_view (analyze w srv req)).2 <= 1)%nat.
Proof.
  destruct (run_view (analyze w srv req)) as [res t] eqn:Hrun. cbn [snd].
  apply analyze_run in Hrun.
  destruct Hrun; destruct s;
    unfold calls_of, trace_credentials, trace_input, trace_download, trace_labels,
      trace_generate, trace_validate;
    vm_compute; lia.
Qed.

(** X22. A 400 has one of three causes: a falsy body, a missing or
    falsy [imageUrl], or a download answered with a response that is not
    [ok]; in each case neither the Vision client nor the generator was
    called. *)
Theorem bad_request_reasons (w : World) (srv : Server) (req : Request) r t :
  run_view (analyze w srv req) = (Responded r, t) ->
  http_status r = 400 ->
  (body r = error_json "No JSON data received"
   \/ body r = error_json "No image URL provided"
   \/ exists url img,
        requests_get w url = Ok img /\ ok img = false
        /\ body r = error_json ("Failed to download image: "
                                ++ pretty (status_code img)))
  /\ calls_of Labeling t = 0%nat /\ calls_of Generating t = 0%nat.
Proof.
  intros Hrun Hst. apply analyze_run in Hrun.
  inversion Hrun; subst; unfold failed in *;
    repeat match goal with
           | H : Responded _ = Responded _ |- _ => injection H as <-
           end;
    cbn [http_status body] in *; try discriminate Hst.
  - split; [left; reflexivity|split; reflexivity].
  - split; [right; left; reflexivity|split; reflexivity].
  - split; [|split; reflexivity]. right; right. eauto.
Qed.

Lemma bad_request_reasons_witness :
  (body {| body := error_json "No JSON data received"; http_status := 400 |}
   = error_json "No JSON data received"
   \/ body {| body := error_json "No JSON data received"; http_status := 400 |}
      = error_json "No image URL provided"
   \/ exists url img,
        requests_get (Sample.world "{}") url = Ok img /\ ok img = false
        /\ body {| body := error_json "No JSON data received"; http_status := 400 |}
           = error_json ("Failed to download image: " ++ pretty (status_code img)))
  /\ calls_of Labeling [CallCheckCredentials; CallGetJson] = 0%nat
  /\ calls_of Generating [CallCheckCredentials; CallGetJson] = 0%nat.
Proof.
  apply (bad_request_reasons (Sample.world "{}") Sample.good_server
           (Sample.post VNone)).
  - vm_compute. reflexivity.
  - reflexivity.
Defined.

(** ** Further properties of the prompt *)

Lemma all_chars_app (p : ascii -> bool) (a b : string) :
  all_chars p (a ++ b) = all_chars p a && all_chars p b.
Proof.
  induction a as [|c a IH]; [reflexivity|].
  change (String c a ++ b) with (String c (a ++ b)).
  cbn [all_chars]. rewrite IH. apply andb_assoc.
Qed.

Lemma hex_digit_printable (k : N) : printable_char (hex_digit k) = true.
Proof.
  unfold hex_digit.
  repeat match goal with
         | |- context [match ?x with _ => _ end] => destruct x
         end; reflexivity.
Qed.

Lemma repr_char_printable (quote c : ascii) :
  printable_char quote = true ->
  all_chars printable_char (repr_char quote c) = true.
Proof.
  intros Hq. unfold repr_char. cbv zeta.
  destruct (Ascii.eqb c "\"); [reflexivity|].
  destruct (Ascii.eqb c quote); [cbn; rewrite Hq; reflexivity|].
  destruct (N_of_ascii c =? 10)%N; [reflexivity|].
  destruct (N_of_ascii c =? 13)%N; [reflexivity|].
  destruct (N_of_ascii c =? 9)%N; [reflexivity|].
  destruct (printable (N_of_ascii c)) eqn:Hp.
  - cbn. unfold printable_char. rewrite Hp. reflexivity.
  - cbn [all_chars]. rewrite !hex_digit_printable. reflexivity.
Qed.

Lemma repr_body_printable (quote : ascii) (s : string) :
  printable_char quote = true ->
  all_chars printable_char (repr_body quote s) = true.
Proof.
  intros Hq. induction s as [|c s IH]; [reflexivity|].
  cbn [repr_body]. rewrite all_chars_app, IH, repr_char_printable by exact Hq.
  reflexivity.
Qed.

Lemma repr_str_printable (s : string) :
  all_chars printable_char (repr_str s) = true.
Proof.
  unfold repr_str. cbv zeta.
  destruct (has_char "'" s && negb (has_char dquote s));
    cbn [all_chars]; rewrite all_chars_app, repr_body_printable by reflexivity;
    reflexivity.
Qed.

Lemma join_printable (xs : list string) :
  Forall (fun x => all_chars printable_char x = true) xs ->
  all_chars printable_char (join ", " xs) = true.
Proof.
  induction 1 as [|x xs Hx Hxs IH]; [reflexivity|].
  destruct xs as [|y xs]; [exact Hx|].
  change (join ", " (x :: y :: xs)) with (x ++ ", " ++ join ", " (y :: xs)).
  rewrite !all_chars_app, Hx, IH. reflexivity.
Qed.

(** X23. Whatever the labels hold, the list of labels written into the
    prompt at line 145, Python's [repr] of the list, consists of
    printable characters only and has no line break: inside the list a
    control character of a label arrives escaped.  (The label at index
    4 is written a second time, at line 159, as it is.) *)
Theorem labels_text_is_printable (labels : list string) :
  all_chars printable_char (repr_list labels) = true
  /\ has_char (ascii_of_N 10) (repr_list labels) = false.
Proof.
  assert (Hp : all_chars printable_char (repr_list labels) = true).
  { unfold repr_list. rewrite !all_chars_app, join_printable; [reflexivity|].
    induction labels as [|label labels IH]; constructor;
      [apply repr_str_printable|exact IH]. }
  split; [exact Hp|].
  induction (repr_list labels) as [|c s IH]; [reflexivity|].
  cbn in Hp. apply andb_true_iff in Hp as [Hc Hs].
  cbn [has_char]. rewrite (IH Hs), orb_false_r.
  destruct (Ascii.eqb_spec (ascii_of_N 10) c) as [<-|]; [discriminate Hc|reflexivity].
Qed.

(** X24. An empty label list is not an error: the prompt then shows
    the list as [[]] and names the item "clothing", and with an accepted
    generator output the answer is the 200 success body with
    [labels: []]. *)
Theorem empty_labels_still_succeed (w : World) (srv : Server) (req : Request)
    client url img text rest v :
  ready w srv req client ->
  has_url req url ->
  downloaded w url img ->
  client_label_detection client (content img) = Ok [] ->
  chat_completions_create w
    (prompt_head ++ "[]" ++ prompt_fields ++ "clothing" ++ prompt_tail)
  = Ok (Some text :: rest) ->
  json_loads w text = Ok v ->
  run_view (analyze w srv req)
  = (Responded {| body := Json (VDict [("success", VBool true);
                                       ("itemSpecifics", VStr text);
                                       ("labels", VList [])]);
                  http_status := 200 |},
     [CallCheckCredentials; CallGetJson; CallRequestsGet url;
      CallLabelDetection (content img);
      CallChatCompletion
        (prompt_head ++ "[]" ++ prompt_fields ++ "clothing" ++ prompt_tail);
      CallJsonLoads (Some text)]).
Proof.
  intros Hr Hu Hd Hl Hc Hj. apply run_analyze.
  eapply (run_success _ _ _ client url img []); try eassumption.
  split; [exact Hr|]. split; [exact Hu|]. split; [exact Hd|].
  split; [exact Hl|reflexivity].
Qed.

Lemma blind_ready reply req :
  method req <> OPTIONS ->
  ready (Sample.world reply) Cases.blind_server req Cases.blind_client.
Proof. sample_ready_tac. Qed.

Lemma empty_labels_still_succeed_witness :
  run_view (analyze (Sample.world Sample.specifics_text) Cases.blind_server
              Sample.good_request)
  = (Responded {| body := Json (VDict [("success", VBool true);
                                       ("itemSpecifics", VStr Sample.specifics_text);
                                       ("labels", VList [])]);
                  http_status := 200 |},
     [CallCheckCredentials; CallGetJson; CallRequestsGet (VStr Sample.image_url);
      CallLabelDetection Sample.image_bytes;
      CallChatCompletion
        (prompt_head ++ "[]" ++ prompt_fields ++ "clothing" ++ prompt_tail);
      CallJsonLoads (Some Sample.specifics_text)]).
Proof.
  apply (empty_labels_still_succeed (Sample.world Sample.specifics_text)
           Cases.blind_server Sample.good_request Cases.blind_client
           (VStr Sample.image_url)
           {| ok := true; status_code := 200; content := Sample.image_bytes |}
           Sample.specifics_text [] Sample.specifics_value).
  - apply blind_ready. discriminate.
  - apply post_has_url; reflexivity.
  - split; reflexivity.
  - reflexivity.
  - reflexivity.
  - vm_compute. reflexivity.
Defined.
